(** * safe-react: the contract registry of [src/logic/contracts/safeContracts.ts]

    A shallow embedding of the module that maps chain identifiers to the
    addresses of the deployed Safe contracts, builds contract handles from
    them, keeps four of those handles in module-level variables, and builds
    and estimates the Safe deployment transaction.

    Conventions of the embedding:
    - a JavaScript completion is a [Result]: [Return v] or [Throw e]; an
      awaited promise is modelled by its outcome, resolution as [Return] and
      rejection as [Throw];
    - functions that read or write module variables, the configuration store
      or the console run in the monad [M] over a [World];
    - functions of other modules and packages (semver, safe-deployments,
      web3, the gateway client) are not part of this module: they are
      variables of the section or fields of the [Web3] value;
    - a JavaScript [number] holding a gas amount, a confirmation count or a
      salt is an integer of [Z]; doubling such a value is exact in IEEE
      double arithmetic as long as it stays finite. *)

From Stdlib Require Import ZArith.
From stdpp Require Import base option gmap strings.

Local Open Scope string_scope.
Local Open Scope Z_scope.
Set Warnings "-register-all".

(** ** Values thrown by JavaScript code *)

(** A thrown value is either a built-in error object ([Error], [TypeError]),
    which has a name and a message and no [log] property, or an object that
    carries a callable [log] property (the application's coded exceptions).
    Calling [log] acts on the console and either returns ([None]) or throws
    in turn ([Some e]). *)
Inductive Thrown : Type :=
| JsError (name message : string)
| LoggableException (message : string)
    (log : list string → option Thrown * list string).

Definition Error (message : string) : Thrown := JsError "Error" message.
Definition TypeError (message : string) : Thrown := JsError "TypeError" message.

(** [e.log]: the [log] property of a thrown value, when it has one. *)
Definition log_method (e : Thrown)
  : option (list string → option Thrown * list string) :=
  match e with
  | JsError _ _ => None
  | LoggableException _ log => Some log
  end.

Inductive Result (A : Type) : Type :=
| Return (a : A)
| Throw (e : Thrown).
Arguments Return {A} a.
Arguments Throw {A} e.

Definition throws {A} (r : Result A) : Prop := ∃ e, r = Throw e.

Global Instance Result_ret : MRet Result := λ A a, Return a.
Global Instance Result_bind : MBind Result := λ A B f r,
  match r with
  | Return a => f a
  | Throw e => Throw e
  end.

(** ** The per-chain deployment record and the contracts table *)

Record ContractDeployment := {
  MultiSend : string;
  CompatibilityFallbackHandler : string;
  GnosisSafeProxyFactory : string;
  GnosisSafeL2 : string;
  SignMessageLib : string;
}.

(** The five property names of a [ContractDeployment]. *)
Inductive ContractName :=
| MultiSend_
| CompatibilityFallbackHandler_
| GnosisSafeProxyFactory_
| GnosisSafeL2_
| SignMessageLib_.

Definition propertyName (n : ContractName) : string :=
  match n with
  | MultiSend_ => "MultiSend"
  | CompatibilityFallbackHandler_ => "CompatibilityFallbackHandler"
  | GnosisSafeProxyFactory_ => "GnosisSafeProxyFactory"
  | GnosisSafeL2_ => "GnosisSafeL2"
  | SignMessageLib_ => "SignMessageLib"
  end.

Definition property (n : ContractName) (d : ContractDeployment) : string :=
  match n with
  | MultiSend_ => MultiSend d
  | CompatibilityFallbackHandler_ => CompatibilityFallbackHandler d
  | GnosisSafeProxyFactory_ => GnosisSafeProxyFactory d
  | GnosisSafeL2_ => GnosisSafeL2 d
  | SignMessageLib_ => SignMessageLib d
  end.

Definition SENTINEL_ADDRESS : string :=
  "0x0000000000000000000000000000000000000001".

Definition contracts : gmap string ContractDeployment :=
  {[ "57" := {|
       MultiSend := "0x09645f834D432C0548B6c75F0cD4BEa2fCAac2Bd";
       CompatibilityFallbackHandler := "0xC397b8918a64f06b0dFba1653eCcE9fD68387326";
       GnosisSafeProxyFactory := "0x111dE2B36368ddDA41CCB0E335eb4a59A3750A1B";
       GnosisSafeL2 := "0x7e1eaA0f4BBDD5501dAb7542B405Ab7fc343105F";
       SignMessageLib := "0x90305FB725E56e042E8f4078e85e02408cA5D4E0" |};
     "5700" := {|
       MultiSend := "0xe3e0CBe5CD22A111EB032C14D052838cd2d4eA07";
       CompatibilityFallbackHandler := "0x41279A031F6A7C42188a006746E0BAfA6d9cB343";
       GnosisSafeProxyFactory := "0x25622d7aB63452822B45B0bfa79e7D2be6b1aE04";
       GnosisSafeL2 := "0x84C2130B89b080aC92b99d988480f63955BCA09A";
       SignMessageLib := "0x6586e66ceFaa4961361bAE42EB2c70d89220A576" |} ]}.

(** ** Property access on the table, as JavaScript evaluates it

    [contracts] is an object literal, so [contracts[chainId]] finds the own
    properties ['57'] and ['5700'], then the properties every object
    inherits from [Object.prototype], and is [undefined] for any other
    key. *)
Definition objectPrototypeProperties : list string :=
  [ "constructor"; "__defineGetter__"; "__defineSetter__"; "hasOwnProperty";
    "__lookupGetter__"; "__lookupSetter__"; "isPrototypeOf";
    "propertyIsEnumerable"; "toString"; "valueOf"; "__proto__";
    "toLocaleString" ].

Inductive TableEntry :=
| OwnRecord (d : ContractDeployment)
| Inherited
| Undefined.

(** [contracts[chainId]] *)
Definition contracts_at (chainId : string) : TableEntry :=
  match contracts !! chainId with
  | Some d => OwnRecord d
  | None =>
      if bool_decide (chainId ∈ objectPrototypeProperties) then Inherited
      else Undefined
  end.

(** What reading the property [name] of [undefined] throws. *)
Definition undefinedRead (name : string) : Thrown :=
  TypeError ("Cannot read properties of undefined (reading '"
             +:+ name +:+ "')").

(** [entry.name]: reading a property of [undefined] throws a [TypeError];
    the members of [Object.prototype] have none of the five properties. *)
Definition readProperty (entry : TableEntry) (n : ContractName)
  : Result (option string) :=
  match entry with
  | OwnRecord d => Return (Some (property n d))
  | Inherited => Return None
  | Undefined => Throw (undefinedRead (propertyName n))
  end.

(** [!contractAddress]: [undefined] and the empty string are falsy. *)
Definition not_ (v : option string) : bool :=
  match v with
  | None => true
  | Some s => bool_decide (s = "")
  end.

(** ** Contract handles and the web3 instance *)

Inductive Abi :=
| GnosisSafeL2ABI
| ProxyFactoryABI
| FallBackHandlerABI
| MultiSendDeploymentABI
| SignMessageLibABI.

(** What this module reads of a contract object: the interface it was built
    from and [options.address]. *)
Record Contract := {
  jsonInterface : Abi;
  options_address : string;
}.

(** A web3 instance, as far as this module uses it: the constructor
    [new web3.eth.Contract(abi, address)], which may throw. *)
Record Web3 := {
  eth_Contract : Abi → option string → Result Contract;
}.

(** ** The lookup functions *)

Definition getGnosisSafeContractInstance (web3 : Web3) (chainId : string)
  : Result Contract :=
  contractAddress ← readProperty (contracts_at chainId) GnosisSafeL2_;
  if not_ contractAddress then
    Throw (Error ("GnosisSafe contract not found for chainId: " +:+ chainId))
  else eth_Contract web3 GnosisSafeL2ABI contractAddress.

Definition getProxyFactoryContractInstance (web3 : Web3) (chainId : string)
  : Result Contract :=
  contractAddress ← readProperty (contracts_at chainId) GnosisSafeProxyFactory_;
  if not_ contractAddress then
    Throw (Error ("GnosisSafeProxyFactory contract not found for chainId: "
                  +:+ chainId))
  else eth_Contract web3 ProxyFactoryABI contractAddress.

Definition getFallbackHandlerContractInstance (web3 : Web3) (chainId : string)
  : Result Contract :=
  contractAddress ←
    readProperty (contracts_at chainId) CompatibilityFallbackHandler_;
  if not_ contractAddress then
    Throw (Error ("FallbackHandler contract not found for chainId: "
                  +:+ chainId))
  else eth_Contract web3 FallBackHandlerABI contractAddress.

Definition getMultiSendContractInstance (web3 : Web3) (chainId : string)
  : Result Contract :=
  contractAddress ← readProperty (contracts_at chainId) MultiSend_;
  if not_ contractAddress then
    Throw (Error ("MultiSend contract not found for chainId: " +:+ chainId))
  else eth_Contract web3 MultiSendDeploymentABI contractAddress.

(** Declared to return [string | undefined]: [Return None] is [undefined]. *)
Definition getSignMessageLibAddress (chainId : string)
  : Result (option string) :=
  contractAddress ← readProperty (contracts_at chainId) SignMessageLib_;
  if not_ contractAddress then
    Throw (Error ("SignMessageLib contract not found for chainId: "
                  +:+ chainId))
  else Return contractAddress.

Definition getSignMessageLibContractInstance (web3 : Web3) (chainId : string)
  : Result Contract :=
  contractAddress ← readProperty (contracts_at chainId) SignMessageLib_;
  if not_ contractAddress then
    Throw (Error ("SignMessageLib contract not found for chainId: "
                  +:+ chainId))
  else eth_Contract web3 SignMessageLibABI contractAddress.

(** ** Module state and its surroundings *)

(** Which of the two getters of the safe-deployments package is called. *)
Inductive Getter :=
| getSafeSingletonDeployment_
| getSafeL2SingletonDeployment_.

(** The filter object passed to a getter; an absent property is [None]. *)
Record DeploymentFilter := {
  version : option string;
  network : option string;
}.

(** The four module-level variables, [undefined] until first assigned, and
    what the module reads or writes outside itself: the chain identifier
    held by the configuration store ([_getChainId]), the web3 instance
    ([getWeb3]), the console, and the calls made to the safe-deployments
    getters, oldest first. *)
Record World := {
  proxyFactoryMaster : option Contract;
  safeMaster : option Contract;
  fallbackHandler : option Contract;
  multiSend : option Contract;
  storeChainId : string;
  storeWeb3 : Web3;
  console : list string;
  deploymentCalls : list (Getter * DeploymentFilter);
}.

Definition set_proxyFactoryMaster (c : Contract) (w : World) : World :=
  {| proxyFactoryMaster := Some c; safeMaster := safeMaster w;
     fallbackHandler := fallbackHandler w; multiSend := multiSend w;
     storeChainId := storeChainId w; storeWeb3 := storeWeb3 w;
     console := console w; deploymentCalls := deploymentCalls w |}.

Definition set_safeMaster (c : Contract) (w : World) : World :=
  {| proxyFactoryMaster := proxyFactoryMaster w; safeMaster := Some c;
     fallbackHandler := fallbackHandler w; multiSend := multiSend w;
     storeChainId := storeChainId w; storeWeb3 := storeWeb3 w;
     console := console w; deploymentCalls := deploymentCalls w |}.

Definition set_fallbackHandler (c : Contract) (w : World) : World :=
  {| proxyFactoryMaster := proxyFactoryMaster w; safeMaster := safeMaster w;
     fallbackHandler := Some c; multiSend := multiSend w;
     storeChainId := storeChainId w; storeWeb3 := storeWeb3 w;
     console := console w; deploymentCalls := deploymentCalls w |}.

Definition set_multiSend (c : Contract) (w : World) : World :=
  {| proxyFactoryMaster := proxyFactoryMaster w; safeMaster := safeMaster w;
     fallbackHandler := fallbackHandler w; multiSend := Some c;
     storeChainId := storeChainId w; storeWeb3 := storeWeb3 w;
     console := console w; deploymentCalls := deploymentCalls w |}.

Definition set_console (c : list string) (w : World) : World :=
  {| proxyFactoryMaster := proxyFactoryMaster w; safeMaster := safeMaster w;
     fallbackHandler := fallbackHandler w; multiSend := multiSend w;
     storeChainId := storeChainId w; storeWeb3 := storeWeb3 w;
     console := c; deploymentCalls := deploymentCalls w |}.

Definition set_deploymentCalls (l : list (Getter * DeploymentFilter))
    (w : World) : World :=
  {| proxyFactoryMaster := proxyFactoryMaster w; safeMaster := safeMaster w;
     fallbackHandler := fallbackHandler w; multiSend := multiSend w;
     storeChainId := storeChainId w; storeWeb3 := storeWeb3 w;
     console := console w; deploymentCalls := l |}.

(** ** The monad of stateful, possibly throwing code *)

Definition M (A : Type) : Type := World → Result A * World.

Global Instance M_ret : MRet M := λ A a w, (Return a, w).
Global Instance M_bind : MBind M := λ A B f m w,
  match m w with
  | (Return a, w') => f a w'
  | (Throw e, w') => (Throw e, w')
  end.

Definition liftR {A} (r : Result A) : M A := λ w, (r, w).
Definition throw {A} (e : Thrown) : M A := λ w, (Throw e, w).
Definition read {A} (f : World → A) : M A := λ w, (Return (f w), w).
Definition write (f : World → World) : M unit := λ w, (Return (), f w).

(** [try { body } catch (e) { handler }] *)
Definition try_catch {A} (body : M A) (handler : Thrown → M A) : M A := λ w,
  match body w with
  | (Return a, w') => (Return a, w')
  | (Throw e, w') => handler e w'
  end.

(** [v.name] for a module variable [v] that may still be [undefined]. *)
Definition member (v : option Contract) (name : string) : M Contract :=
  match v with
  | Some c => mret c
  | None => throw (undefinedRead name)
  end.

Definition _getChainId : M string := read storeChainId.
Definition getWeb3 : M Web3 := read storeWeb3.

Definition console_error (line : string) : M unit :=
  write (λ w, set_console (console w ++ [line]) w).

(** [e.log()] on a caught value. *)
Definition call_log (e : Thrown) : M unit :=
  match log_method e with
  | None => throw (TypeError "e.log is not a function")
  | Some log => λ w,
      let '(outcome, c) := log (console w) in
      (match outcome with None => Return () | Some e' => Throw e' end,
       set_console c w)
  end.

(** ** Values passed to contract methods *)

Inductive JsValue :=
| JsString (s : string)
| JsNumber (n : Z)
| JsStringArray (l : list string).

(** [contract.methods.name(arguments)]: the call object a method builder
    returns, before it is encoded or sent. *)
Record MethodCall := {
  call_contract : Contract;
  call_method : string;
  call_arguments : list JsValue;
}.

(** The argument of [calculateGasOf]. *)
Record GasRequest := {
  data : string;
  from : string;
  to : string;
}.

(** What this module reads of the gateway's answer:
    [res.implementation.value]. *)
Record SafeInfo := {
  implementation_value : option string;
}.

(** What this module reads of a chain's configuration. *)
Record ChainInfo := {
  l2 : bool;
}.

(** ** A reference environment

    Concrete stand-ins for the surroundings of the module, used to run the
    definitions on explicit inputs: a web3 whose constructor records its two
    arguments, an encoder that names the method it encodes, a node that
    estimates 53000 gas for every request. *)
Module Reference.

Definition web3 : Web3 :=
  {| eth_Contract := λ abi address,
       Return {| jsonInterface := abi;
                 options_address := default "" address |} |}.

Definition ZERO_ADDRESS : string :=
  "0x0000000000000000000000000000000000000000".
Definition EMPTY_DATA : string := "0x".

Definition encodeABI (c : MethodCall) : Result string :=
  Return ("0x" +:+ call_method c).

Definition calculateGasOf (r : GasRequest) : Result Z := Return 53000.

(** A world in which nothing has been instantiated yet. *)
Definition initial (chainId : string) : World :=
  {| proxyFactoryMaster := None; safeMaster := None;
     fallbackHandler := None; multiSend := None;
     storeChainId := chainId; storeWeb3 := web3;
     console := []; deploymentCalls := [] |}.

(** A gateway that knows one Safe and fails with a coded exception, whose
    [log] writes its message to the console, for every other address. *)
Definition codedException (message : string) : Thrown :=
  LoggableException message (λ c, (None, (c ++ [message])%list)).

Definition getSafeInfo (proxyAddress : string) : Result SafeInfo :=
  if bool_decide (proxyAddress = "0x57CB13cbef735FbDD65f5f2866638c546464E45F")
  then Return {| implementation_value :=
                   Some "0x7e1eaA0f4BBDD5501dAb7542B405Ab7fc343105F" |}
  else Throw (codedException "605: Error fetching safe info").

(** A gateway that fails with an ordinary [Error]. *)
Definition getSafeInfo_plain (proxyAddress : string) : Result SafeInfo :=
  Throw (Error "Network Error").

(** Deployments are named by the version they were asked for. The legacy
    getter knows 1.0.0, 1.1.1 and 1.3.0 on every network; the L2 getter
    knows 1.3.0 only. *)
Definition getSafeSingletonDeployment (f : DeploymentFilter) : option string :=
  match version f with
  | Some v =>
      if bool_decide (v ∈ ["1.0.0"; "1.1.1"; "1.3.0"]) then Some ("L1 " +:+ v)
      else None
  | None => None
  end.

Definition getSafeL2SingletonDeployment (f : DeploymentFilter)
  : option string :=
  match version f with
  | Some v => if bool_decide (v = "1.3.0") then Some ("L2 " +:+ v) else None
  | None => None
  end.

(** The two ranges the module asks about, on the versions used here. *)
Definition semverSatisfies (v range : string) : bool :=
  if bool_decide (range = "<1.0.0") then bool_decide (v ∈ ["0.0.1"; "0.1.0"])
  else if bool_decide (range = ">=1.3.0") then bool_decide (v ∈ ["1.3.0"; "1.4.1"])
  else false.

Definition getChainById (chainId : string) : ChainInfo :=
  {| l2 := bool_decide (chainId ∈ ["57"; "5700"]) |}.

(** The world after the handles were instantiated on chain 57. *)
Definition instantiated57 : World :=
  {| proxyFactoryMaster :=
       Some {| jsonInterface := ProxyFactoryABI;
               options_address := "0x111dE2B36368ddDA41CCB0E335eb4a59A3750A1B" |};
     safeMaster :=
       Some {| jsonInterface := GnosisSafeL2ABI;
               options_address := "0x7e1eaA0f4BBDD5501dAb7542B405Ab7fc343105F" |};
     fallbackHandler :=
       Some {| jsonInterface := FallBackHandlerABI;
               options_address := "0xC397b8918a64f06b0dFba1653eCcE9fD68387326" |};
     multiSend :=
       Some {| jsonInterface := MultiSendDeploymentABI;
               options_address := "0x09645f834D432C0548B6c75F0cD4BEa2fCAac2Bd" |};
     storeChainId := "57"; storeWeb3 := web3;
     console := []; deploymentCalls := [] |}.

(** The same world after the user selected chain 1, which the table does
    not know. *)
Definition switchedTo1 : World :=
  {| proxyFactoryMaster := proxyFactoryMaster instantiated57;
     safeMaster := safeMaster instantiated57;
     fallbackHandler := fallbackHandler instantiated57;
     multiSend := multiSend instantiated57;
     storeChainId := "1"; storeWeb3 := web3;
     console := []; deploymentCalls := [] |}.

(** A web3 whose constructor rejects the [GnosisSafeL2] interface and
    records its arguments for every other one. *)
Definition web3_rejecting_safe : Web3 :=
  {| eth_Contract := λ abi address,
       match abi with
       | GnosisSafeL2ABI => Throw (Error "Given address is invalid")
       | _ => Return {| jsonInterface := abi;
                        options_address := default "" address |}
       end |}.

(** A node that refuses every estimate. *)
Definition calculateGasOf_reverting (r : GasRequest) : Result Z :=
  Throw (Error "execution reverted").



End Reference.

(** ** The stateful functions of the module *)

Section SafeContracts.

(** Constants and functions imported from other modules and packages. *)
Variables ZERO_ADDRESS EMPTY_DATA : string.
Variable encodeABI : MethodCall → Result string.
Variable calculateGasOf : GasRequest → Result Z.
Variable getSafeInfo : string → Result SafeInfo.
Variable semverSatisfies : string → string → bool.
Variable SingletonDeployment : Type.
Variables getSafeSingletonDeployment getSafeL2SingletonDeployment :
  DeploymentFilter → option SingletonDeployment.
Variable getChainById : string → ChainInfo.

(** The function a getter name stands for. *)
Definition getterFunction (g : Getter)
  : DeploymentFilter → option SingletonDeployment :=
  match g with
  | getSafeSingletonDeployment_ => getSafeSingletonDeployment
  | getSafeL2SingletonDeployment_ => getSafeL2SingletonDeployment
  end.

(** Calling the getter a local variable holds; the call is recorded. *)
Definition callGetter (g : Getter) (filter : DeploymentFilter)
  : M (option SingletonDeployment) := λ w,
  (Return (getterFunction g filter),
   set_deploymentCalls (deploymentCalls w ++ [(g, filter)]) w).

(** [a || b] on values that are an object or [undefined]: [b] is evaluated
    only when [a] is [undefined]. *)
Definition or_else {A} (a b : M (option A)) : M (option A) :=
  v ← a;
  match v with
  | Some _ => mret v
  | None => b
  end.

Definition getSafeContractDeployment (safeVersion : string)
  : M (option SingletonDeployment) :=
  let useOldestContractVersion := semverSatisfies safeVersion "<1.0.0" in
  networkId ← _getChainId;
  let chainConfig := getChainById networkId in
  let useL2ContractVersion :=
    l2 chainConfig && semverSatisfies safeVersion ">=1.3.0" in
  let getDeployment :=
    if useL2ContractVersion then getSafeL2SingletonDeployment_
    else getSafeSingletonDeployment_ in
  or_else
    (callGetter getDeployment
       {| version := Some safeVersion; network := Some networkId |})
    (or_else
       (callGetter getDeployment
          {| version := Some safeVersion; network := None |})
       (if useOldestContractVersion then
          callGetter getDeployment
            {| version := Some "1.0.0"; network := None |}
        else mret None)).

Definition getMasterCopyAddressFromProxyAddress (proxyAddress : string)
  : M (option string) :=
  let masterCopyAddress : option string := None in
  masterCopyAddress ←
    try_catch
      (res ← liftR (getSafeInfo proxyAddress);
       let masterCopyAddress := implementation_value res in
       (if not_ masterCopyAddress then
          console_error
            ("There was not possible to get masterCopy address from proxy "
             +:+ proxyAddress +:+ ".")
        else mret ());;
       mret masterCopyAddress)
      (λ e, call_log e;; mret masterCopyAddress);
  mret masterCopyAddress.

Definition instantiateSafeContracts : M unit :=
  web3 ← getWeb3;
  chainId ← _getChainId;
  c ← liftR (getProxyFactoryContractInstance web3 chainId);
  write (set_proxyFactoryMaster c);;
  c ← liftR (getGnosisSafeContractInstance web3 chainId);
  write (set_safeMaster c);;
  c ← liftR (getFallbackHandlerContractInstance web3 chainId);
  write (set_fallbackHandler c);;
  c ← liftR (getMultiSendContractInstance web3 chainId);
  write (set_multiSend c).

Definition getSafeMasterContract : M (option Contract) :=
  instantiateSafeContracts;;
  read safeMaster.

Definition getSafeMasterContractAddress : M string :=
  c ← read safeMaster ≫= λ v, member v "options";
  mret (options_address c).

Definition getFallbackHandlerContractAddress : M string :=
  c ← read fallbackHandler ≫= λ v, member v "options";
  mret (options_address c).

Definition getMultisendContract : M (option Contract) := read multiSend.

Definition getMultisendContractAddress : M string :=
  c ← read multiSend ≫= λ v, member v "options";
  mret (options_address c).

(** [safeMaster.methods.setup(...)] as [getSafeDeploymentTransaction]
    calls it. *)
Definition setupCall (safeMaster_ fallbackHandler_ : Contract)
    (safeAccounts : list string) (numConfirmations : Z) : MethodCall :=
  {| call_contract := safeMaster_;
     call_method := "setup";
     call_arguments :=
       [ JsStringArray safeAccounts;
         JsNumber numConfirmations;
         JsString ZERO_ADDRESS;
         JsString EMPTY_DATA;
         JsString (options_address fallbackHandler_);
         JsString ZERO_ADDRESS;
         JsNumber 0;
         JsString ZERO_ADDRESS ] |}.

(** [proxyFactoryMaster.methods.createProxyWithNonce(...)] *)
Definition createProxyWithNonceCall (proxyFactoryMaster_ : Contract)
    (singleton initializer : string) (saltNonce : Z) : MethodCall :=
  {| call_contract := proxyFactoryMaster_;
     call_method := "createProxyWithNonce";
     call_arguments :=
       [ JsString singleton; JsString initializer; JsNumber saltNonce ] |}.

Definition getSafeDeploymentTransaction (safeAccounts : list string)
    (numConfirmations safeCreationSalt : Z) : M MethodCall :=
  safeMaster_ ← read safeMaster ≫= λ v, member v "methods";
  fallbackHandler_ ← read fallbackHandler ≫= λ v, member v "options";
  gnosisSafeData ←
    liftR (encodeABI
             (setupCall safeMaster_ fallbackHandler_ safeAccounts
                numConfirmations));
  proxyFactoryMaster_ ← read proxyFactoryMaster ≫= λ v, member v "methods";
  safeMaster_ ← read safeMaster ≫= λ v, member v "options";
  mret (createProxyWithNonceCall proxyFactoryMaster_
          (options_address safeMaster_) gnosisSafeData safeCreationSalt).

Definition estimateGasForDeployingSafe (safeAccounts : list string)
    (numConfirmations : Z) (userAccount : string) (safeCreationSalt : Z)
  : M Z :=
  proxyFactoryData ←
    getSafeDeploymentTransaction safeAccounts numConfirmations safeCreationSalt
    ≫= λ tx, liftR (encodeABI tx);
  proxyFactoryMaster_ ← read proxyFactoryMaster ≫= λ v, member v "options";
  value ← liftR (calculateGasOf
                   {| data := proxyFactoryData;
                      from := userAccount;
                      to := options_address proxyFactoryMaster_ |});
  mret (value * 2).

(** ** Statements of the specification, as definitions *)

(** An error that reports the missing configuration of a chain: the message
    the lookup functions build for the contract they call [label]. *)
Definition reportsMissingConfiguration (label chainId : string) (e : Thrown)
  : Prop :=
  e = Error (label +:+ " contract not found for chainId: " +:+ chainId).

(** The lookups that apply to a version, in the order the specification
    gives: network-specific, network-independent and, for a version below
    1.0.0, version 1.0.0. *)
Definition applicableLookups (safeVersion networkId : string)
  : list DeploymentFilter :=
  [ {| version := Some safeVersion; network := Some networkId |};
    {| version := Some safeVersion; network := None |} ]
  ++ (if semverSatisfies safeVersion "<1.0.0"
      then [ {| version := Some "1.0.0"; network := None |} ]
      else []).

(** Trying lookups in order until one succeeds: the deployment found, if
    any, and the lookups that were made. *)
Fixpoint firstFound {D} (get : DeploymentFilter → option D)
    (lookups : list DeploymentFilter) : option D * list DeploymentFilter :=
  match lookups with
  | [] => (None, [])
  | f :: rest =>
      match get f with
      | Some d => (Some d, [f])
      | None => let '(r, made) := firstFound get rest in (r, f :: made)
      end
  end.

(** The four cached handles of [w] are the instances [web3] builds from the
    addresses the table records for [chainId]. *)
Definition handlesReflect (web3 : Web3) (chainId : string) (w : World)
  : Prop :=
  ∃ d, contracts !! chainId = Some d
    ∧ Return <$> proxyFactoryMaster w
      = Some (eth_Contract web3 ProxyFactoryABI (Some (GnosisSafeProxyFactory d)))
    ∧ Return <$> safeMaster w
      = Some (eth_Contract web3 GnosisSafeL2ABI (Some (GnosisSafeL2 d)))
    ∧ Return <$> fallbackHandler w
      = Some (eth_Contract web3 FallBackHandlerABI
                (Some (CompatibilityFallbackHandler d)))
    ∧ Return <$> multiSend w
      = Some (eth_Contract web3 MultiSendDeploymentABI (Some (MultiSend d))).

(** A world with the four handles replaced and everything else kept. *)
Definition withHandles (pf sm fh ms : Contract) (w : World) : World :=
  set_multiSend ms
    (set_fallbackHandler fh (set_safeMaster sm (set_proxyFactoryMaster pf w))).

(** ** The remaining function of the module *)

(** What [getGnosisSafeInstanceAt] uses beyond the above: the [abi] property
    of a deployment, and the web3 constructor applied to such an interface
    ([undefined] when there is no deployment) and an address. *)
Variable DeploymentAbi : Type.
Variable deployment_abi : SingletonDeployment → DeploymentAbi.
Variable GnosisSafeInstance : Type.
Variable newContractAt :
  Web3 → option DeploymentAbi → string → Result GnosisSafeInstance.


(** ** Further statements about the module, as definitions *)

Definition isHexDigit (c : Ascii.ascii) : bool :=
  let n := Ascii.nat_of_ascii c in
  ((48 <=? n) && (n <=? 57) || (65 <=? n) && (n <=? 70)
   || (97 <=? n) && (n <=? 102))%nat.

(** The shape of an address: [0x] and forty hexadecimal digits. *)
Definition addressShaped (s : string) : bool :=
  bool_decide (String.substring 0 2 s = "0x")
  && (String.length s =? 42)%nat
  && forallb isHexDigit (String.list_ascii_of_string (String.substring 2 40 s)).

(** What a lookup throws off the table: the module's own error, built for
    [label], when the identifier names a property inherited from
    [Object.prototype], and otherwise the error of reading [name] of
    [undefined]. *)
Definition offTableError (label name chainId : string) : Thrown :=
  if bool_decide (chainId ∈ objectPrototypeProperties)
  then Error (label +:+ " contract not found for chainId: " +:+ chainId)
  else undefinedRead name.

(** Two worlds hold the same four handles. *)
Definition sameHandles (w1 w2 : World) : Prop :=
  proxyFactoryMaster w1 = proxyFactoryMaster w2
  ∧ safeMaster w1 = safeMaster w2
  ∧ fallbackHandler w1 = fallbackHandler w2
  ∧ multiSend w1 = multiSend w2.


(** ** Proof steps used throughout *)

(** Unfolds the operations of [M] and reduces the matches they expose. *)
Ltac unfold_monad :=
  unfold _getChainId, getWeb3;
  unfold mbind, M_bind, mret, M_ret, liftR, read, write, throw;
  cbv beta iota.

(** ** Facts about the table *)

Lemma contracts_lookup_Some (chainId : string) (d : ContractDeployment) :
  contracts !! chainId = Some d →
  chainId = "57" ∨ chainId = "5700".
Proof.
  unfold contracts. intros H.
  apply lookup_insert_Some in H as [[<- _]|[_ H]]; [by left|].
  apply lookup_singleton_Some in H as [<- _]. by right.
Qed.

Lemma contracts_dom : dom contracts = {[ "57"; "5700" ]}.
Proof.
  unfold contracts. rewrite dom_insert_L, dom_singleton_L. done.
Qed.

Lemma contracts_complete (chainId : string) (d : ContractDeployment)
    (n : ContractName) :
  contracts !! chainId = Some d → property n d ≠ "".
Proof.
  intros H. destruct (contracts_lookup_Some _ _ H) as [-> | ->];
    vm_compute in H; injection H as <-; by destruct n.
Qed.

Lemma contracts_at_own (chainId : string) (d : ContractDeployment) :
  contracts !! chainId = Some d → contracts_at chainId = OwnRecord d.
Proof. intros H. unfold contracts_at. by rewrite H. Qed.

Lemma contracts_at_not_key (chainId : string) :
  chainId ∉ dom contracts →
  contracts_at chainId = Inherited ∨ contracts_at chainId = Undefined.
Proof.
  intros H. apply not_elem_of_dom in H. unfold contracts_at. rewrite H.
  case_bool_decide; auto.
Qed.

Lemma not_property (chainId : string) (d : ContractDeployment)
    (n : ContractName) :
  contracts !! chainId = Some d → not_ (Some (property n d)) = false.
Proof.
  intros H. simpl. apply bool_decide_eq_false. by eapply contracts_complete.
Qed.


(** ** The lookup functions on supported and unsupported chains *)

(** Runs the first two statements of a lookup function on a chain of the
    table: the property read returns the recorded address and the guard
    passes. *)
Ltac lookup_own H n :=
  let Hn := fresh "Hn" in
  pose proof (not_property _ _ n H) as Hn; cbn [property] in Hn;
  rewrite (contracts_at_own _ _ H);
  cbn [readProperty mbind Result_bind property];
  rewrite Hn; reflexivity.

(** Runs them off the table: the read throws, or the guard does. *)
Ltac lookup_not_key H :=
  destruct (contracts_at_not_key _ H) as [-> | ->];
  cbn [readProperty mbind Result_bind not_]; eexists; reflexivity.

Lemma getGnosisSafeContractInstance_own web3 chainId d :
  contracts !! chainId = Some d →
  getGnosisSafeContractInstance web3 chainId
  = eth_Contract web3 GnosisSafeL2ABI (Some (GnosisSafeL2 d)).
Proof.
  intros H. unfold getGnosisSafeContractInstance. lookup_own H GnosisSafeL2_.
Qed.

Lemma getProxyFactoryContractInstance_own web3 chainId d :
  contracts !! chainId = Some d →
  getProxyFactoryContractInstance web3 chainId
  = eth_Contract web3 ProxyFactoryABI (Some (GnosisSafeProxyFactory d)).
Proof.
  intros H. unfold getProxyFactoryContractInstance.
  lookup_own H GnosisSafeProxyFactory_.
Qed.

Lemma getFallbackHandlerContractInstance_own web3 chainId d :
  contracts !! chainId = Some d →
  getFallbackHandlerContractInstance web3 chainId
  = eth_Contract web3 FallBackHandlerABI
      (Some (CompatibilityFallbackHandler d)).
Proof.
  intros H. unfold getFallbackHandlerContractInstance.
  lookup_own H CompatibilityFallbackHandler_.
Qed.

Lemma getMultiSendContractInstance_own web3 chainId d :
  contracts !! chainId = Some d →
  getMultiSendContractInstance web3 chainId
  = eth_Contract web3 MultiSendDeploymentABI (Some (MultiSend d)).
Proof.
  intros H. unfold getMultiSendContractInstance. lookup_own H MultiSend_.
Qed.

Lemma getSignMessageLibAddress_own chainId d :
  contracts !! chainId = Some d →
  getSignMessageLibAddress chainId = Return (Some (SignMessageLib d)).
Proof.
  intros H. unfold getSignMessageLibAddress. lookup_own H SignMessageLib_.
Qed.

Lemma getSignMessageLibContractInstance_own web3 chainId d :
  contracts !! chainId = Some d →
  getSignMessageLibContractInstance web3 chainId
  = eth_Contract web3 SignMessageLibABI (Some (SignMessageLib d)).
Proof.
  intros H. unfold getSignMessageLibContractInstance.
  lookup_own H SignMessageLib_.
Qed.

(** Off the table a lookup throws: the [TypeError] of reading a property of
    [undefined], or, for a name inherited from [Object.prototype], the
    module's own error. *)
Lemma getSignMessageLibAddress_off_table chainId :
  chainId ∉ dom contracts → throws (getSignMessageLibAddress chainId).
Proof.
  intros H. unfold getSignMessageLibAddress. lookup_not_key H.
Qed.

Lemma lookups_throw_off_table web3 chainId :
  chainId ∉ dom contracts →
  throws (getGnosisSafeContractInstance web3 chainId)
  ∧ throws (getProxyFactoryContractInstance web3 chainId)
  ∧ throws (getFallbackHandlerContractInstance web3 chainId)
  ∧ throws (getMultiSendContractInstance web3 chainId)
  ∧ throws (getSignMessageLibAddress chainId)
  ∧ throws (getSignMessageLibContractInstance web3 chainId).
Proof.
  intros H.
  unfold getGnosisSafeContractInstance, getProxyFactoryContractInstance,
    getFallbackHandlerContractInstance, getMultiSendContractInstance,
    getSignMessageLibAddress, getSignMessageLibContractInstance.
  repeat split; lookup_not_key H.
Qed.

(** C2. For a chain identifier that is not a key of the table, such as
    ['1'], each of the six lookup functions throws synchronously, but what
    it throws is the [TypeError] raised by reading a property of
    [undefined]: the error does not report the missing configuration of the
    requested chain, which the guard after the read was written to do. *)
Theorem lookup_off_table_throws_TypeError (web3 : Web3) :
  ("1" ∉ dom contracts)
  ∧ getGnosisSafeContractInstance web3 "1"
    = Throw (undefinedRead "GnosisSafeL2")
  ∧ getProxyFactoryContractInstance web3 "1"
    = Throw (undefinedRead "GnosisSafeProxyFactory")
  ∧ getFallbackHandlerContractInstance web3 "1"
    = Throw (undefinedRead "CompatibilityFallbackHandler")
  ∧ getMultiSendContractInstance web3 "1"
    = Throw (undefinedRead "MultiSend")
  ∧ getSignMessageLibAddress "1" = Throw (undefinedRead "SignMessageLib")
  ∧ getSignMessageLibContractInstance web3 "1"
    = Throw (undefinedRead "SignMessageLib")
  ∧ ∀ name label, ¬ reportsMissingConfiguration label "1" (undefinedRead name).
Proof.
  split.
  { apply not_elem_of_dom. vm_compute. reflexivity. }
  repeat split; try (vm_compute; reflexivity).
  intros name label. unfold reportsMissingConfiguration, undefinedRead.
  discriminate.
Qed.

(** C3. The keys of the table are ['57'] and ['5700'], and every key
    resolves to a record whose five addresses are all non-empty: reading
    any of the five names on a supported chain yields a non-empty address,
    the guard that follows passes and every lookup function goes on with
    that address. *)
Theorem supported_chain_lookups_succeed (chainId : string) :
  chainId ∈ dom contracts →
  dom contracts = {[ "57"; "5700" ]}
  ∧ ∃ d, contracts !! chainId = Some d
    ∧ (∀ n, readProperty (contracts_at chainId) n = Return (Some (property n d))
          ∧ property n d ≠ ""
          ∧ not_ (Some (property n d)) = false)
    ∧ getSignMessageLibAddress chainId = Return (Some (SignMessageLib d))
    ∧ ∀ web3,
        getGnosisSafeContractInstance web3 chainId
        = eth_Contract web3 GnosisSafeL2ABI (Some (GnosisSafeL2 d))
        ∧ getProxyFactoryContractInstance web3 chainId
          = eth_Contract web3 ProxyFactoryABI (Some (GnosisSafeProxyFactory d))
        ∧ getFallbackHandlerContractInstance web3 chainId
          = eth_Contract web3 FallBackHandlerABI
              (Some (CompatibilityFallbackHandler d))
        ∧ getMultiSendContractInstance web3 chainId
          = eth_Contract web3 MultiSendDeploymentABI (Some (MultiSend d))
        ∧ getSignMessageLibContractInstance web3 chainId
          = eth_Contract web3 SignMessageLibABI (Some (SignMessageLib d)).
Proof.
  intros Hin. split; [exact contracts_dom|].
  apply elem_of_dom in Hin as [d Hd]. exists d.
  split; [exact Hd|]. split; [|split].
  - intros n. rewrite (contracts_at_own _ _ Hd).
    eauto using contracts_complete, not_property.
  - by apply getSignMessageLibAddress_own.
  - intros web3.
    eauto 10 using getGnosisSafeContractInstance_own,
      getProxyFactoryContractInstance_own,
      getFallbackHandlerContractInstance_own,
      getMultiSendContractInstance_own,
      getSignMessageLibContractInstance_own.
Qed.

(** C9. [getSignMessageLibAddress] never returns [undefined]: off the table
    it throws, and on the table it returns the non-empty [SignMessageLib]
    address recorded for the chain. *)
Theorem getSignMessageLibAddress_never_undefined (chainId : string) :
  (getSignMessageLibAddress chainId ≠ Return None)
  ∧ (((chainId ∉ dom contracts) ∧ throws (getSignMessageLibAddress chainId))
     ∨ (∃ d, contracts !! chainId = Some d
          ∧ getSignMessageLibAddress chainId = Return (Some (SignMessageLib d))
          ∧ SignMessageLib d ≠ "")).
Proof.
  destruct (contracts !! chainId) as [d|] eqn:Hd.
  - rewrite (getSignMessageLibAddress_own _ _ Hd). split; [discriminate|].
    right. exists d. repeat split.
    exact (contracts_complete _ _ SignMessageLib_ Hd).
  - apply not_elem_of_dom in Hd.
    destruct (getSignMessageLibAddress_off_table _ Hd) as [e He].
    rewrite He. split; [discriminate|]. left. split; [exact Hd|].
    by exists e.
Qed.


(** ** Running the monad *)

Lemma bind_Return {A B} (m : M A) (k : A → M B) (w w' : World) (b : B) :
  (m ≫= k) w = (Return b, w')
  ↔ ∃ a w1, m w = (Return a, w1) ∧ k a w1 = (Return b, w').
Proof.
  unfold mbind, M_bind. split.
  - destruct (m w) as [[a|e] w1]; [eauto | discriminate].
  - intros (a & w1 & -> & Hk). exact Hk.
Qed.

Lemma liftR_Return {A} (r : Result A) (w w' : World) (a : A) :
  liftR r w = (Return a, w') ↔ r = Return a ∧ w' = w.
Proof. unfold liftR. split; [intros [= -> ->] | intros [-> ->]]; done. Qed.

Lemma member_Return (v : option Contract) (name : string) (w w' : World)
    (c : Contract) :
  member v name w = (Return c, w') ↔ v = Some c ∧ w' = w.
Proof.
  destruct v as [c0|]; cbn; split; try intros [= -> ->]; try done.
  - by intros [[= ->] ->].
  - by intros [? _].
Qed.

(** ** Instantiating the cached handles *)

Lemma withHandles_frame pf sm fh ms w :
  storeChainId (withHandles pf sm fh ms w) = storeChainId w
  ∧ storeWeb3 (withHandles pf sm fh ms w) = storeWeb3 w
  ∧ console (withHandles pf sm fh ms w) = console w
  ∧ deploymentCalls (withHandles pf sm fh ms w) = deploymentCalls w.
Proof. done. Qed.

Lemma instantiateSafeContracts_run (w : World) d pf sm fh ms :
  contracts !! storeChainId w = Some d →
  eth_Contract (storeWeb3 w) ProxyFactoryABI (Some (GnosisSafeProxyFactory d))
  = Return pf →
  eth_Contract (storeWeb3 w) GnosisSafeL2ABI (Some (GnosisSafeL2 d))
  = Return sm →
  eth_Contract (storeWeb3 w) FallBackHandlerABI
    (Some (CompatibilityFallbackHandler d)) = Return fh →
  eth_Contract (storeWeb3 w) MultiSendDeploymentABI (Some (MultiSend d))
  = Return ms →
  instantiateSafeContracts w = (Return (), withHandles pf sm fh ms w).
Proof.
  intros Hd Hpf Hsm Hfh Hms. unfold instantiateSafeContracts. unfold_monad.
  rewrite (getProxyFactoryContractInstance_own _ _ _ Hd), Hpf.
  rewrite (getGnosisSafeContractInstance_own _ _ _ Hd), Hsm.
  rewrite (getFallbackHandlerContractInstance_own _ _ _ Hd), Hfh.
  rewrite (getMultiSendContractInstance_own _ _ _ Hd), Hms.
  reflexivity.
Qed.

Lemma instantiateSafeContracts_off_table (w : World) :
  storeChainId w ∉ dom contracts →
  ∃ e, instantiateSafeContracts w = (Throw e, w).
Proof.
  intros H.
  destruct (lookups_throw_off_table (storeWeb3 w) _ H) as (_ & [e He] & _).
  exists e. unfold instantiateSafeContracts. unfold_monad. by rewrite He.
Qed.

Lemma instantiateSafeContracts_Return (w w' : World) :
  instantiateSafeContracts w = (Return (), w') →
  ∃ d pf sm fh ms,
    contracts !! storeChainId w = Some d
    ∧ eth_Contract (storeWeb3 w) ProxyFactoryABI
        (Some (GnosisSafeProxyFactory d)) = Return pf
    ∧ eth_Contract (storeWeb3 w) GnosisSafeL2ABI (Some (GnosisSafeL2 d))
      = Return sm
    ∧ eth_Contract (storeWeb3 w) FallBackHandlerABI
        (Some (CompatibilityFallbackHandler d)) = Return fh
    ∧ eth_Contract (storeWeb3 w) MultiSendDeploymentABI (Some (MultiSend d))
      = Return ms
    ∧ w' = withHandles pf sm fh ms w.
Proof.
  intros Hrun. destruct (contracts !! storeChainId w) as [d|] eqn:Hd.
  - exists d. revert Hrun. unfold instantiateSafeContracts. unfold_monad.
    rewrite (getProxyFactoryContractInstance_own _ _ _ Hd).
    rewrite (getGnosisSafeContractInstance_own _ _ _ Hd).
    rewrite (getFallbackHandlerContractInstance_own _ _ _ Hd).
    rewrite (getMultiSendContractInstance_own _ _ _ Hd).
    destruct (eth_Contract _ ProxyFactoryABI _) as [pf|]; [|discriminate].
    destruct (eth_Contract _ GnosisSafeL2ABI _) as [sm|]; [|discriminate].
    destruct (eth_Contract _ FallBackHandlerABI _) as [fh|]; [|discriminate].
    destruct (eth_Contract _ MultiSendDeploymentABI _) as [ms|];
      [|discriminate].
    intros [= <-]. by exists pf, sm, fh, ms.
  - apply not_elem_of_dom in Hd.
    destruct (instantiateSafeContracts_off_table w Hd) as [e He].
    rewrite He in Hrun. discriminate.
Qed.

Lemma handlesReflect_withHandles (w : World) d pf sm fh ms :
  contracts !! storeChainId w = Some d →
  eth_Contract (storeWeb3 w) ProxyFactoryABI (Some (GnosisSafeProxyFactory d))
  = Return pf →
  eth_Contract (storeWeb3 w) GnosisSafeL2ABI (Some (GnosisSafeL2 d))
  = Return sm →
  eth_Contract (storeWeb3 w) FallBackHandlerABI
    (Some (CompatibilityFallbackHandler d)) = Return fh →
  eth_Contract (storeWeb3 w) MultiSendDeploymentABI (Some (MultiSend d))
  = Return ms →
  handlesReflect (storeWeb3 w) (storeChainId w) (withHandles pf sm fh ms w).
Proof.
  intros Hd Hpf Hsm Hfh Hms. exists d. rewrite Hpf, Hsm, Hfh, Hms. done.
Qed.

(** C7, as amended. A call to [instantiateSafeContracts] returns normally
    exactly when the selected chain is a key of the table and web3 builds
    the four instances; it then overwrites all four cached handles with the
    instances built from that chain's addresses, whatever the handles held
    before, and changes nothing else. A call made while the selected chain
    is not in the table throws and leaves every handle as it was. *)
Theorem instantiateSafeContracts_overwrites_on_return (w : World) :
  (∀ w', instantiateSafeContracts w = (Return (), w')
     ↔ ∃ d pf sm fh ms,
         contracts !! storeChainId w = Some d
         ∧ eth_Contract (storeWeb3 w) ProxyFactoryABI
             (Some (GnosisSafeProxyFactory d)) = Return pf
         ∧ eth_Contract (storeWeb3 w) GnosisSafeL2ABI (Some (GnosisSafeL2 d))
           = Return sm
         ∧ eth_Contract (storeWeb3 w) FallBackHandlerABI
             (Some (CompatibilityFallbackHandler d)) = Return fh
         ∧ eth_Contract (storeWeb3 w) MultiSendDeploymentABI
             (Some (MultiSend d)) = Return ms
         ∧ w' = withHandles pf sm fh ms w
         ∧ handlesReflect (storeWeb3 w') (storeChainId w') w')
  ∧ ((storeChainId w ∉ dom contracts) →
     ∃ e, instantiateSafeContracts w = (Throw e, w)).
Proof.
  split; [|apply instantiateSafeContracts_off_table].
  intros w'. split.
  - intros Hrun.
    destruct (instantiateSafeContracts_Return _ _ Hrun)
      as (d & pf & sm & fh & ms & Hd & Hpf & Hsm & Hfh & Hms & ->).
    exists d, pf, sm, fh, ms. repeat (split; [done|]).
    exact (handlesReflect_withHandles w d pf sm fh ms Hd Hpf Hsm Hfh Hms).
  - intros (d & pf & sm & fh & ms & Hd & Hpf & Hsm & Hfh & Hms & -> & _).
    by apply (instantiateSafeContracts_run w d).
Qed.


(** ** The deployment transaction and its gas estimate *)

Lemma getSafeDeploymentTransaction_run accounts n salt (w : World) sm fh pf :
  safeMaster w = Some sm →
  fallbackHandler w = Some fh →
  proxyFactoryMaster w = Some pf →
  getSafeDeploymentTransaction accounts n salt w
  = (data ← encodeABI (setupCall sm fh accounts n);
     Return (createProxyWithNonceCall pf (options_address sm) data salt),
     w).
Proof.
  intros Hsm Hfh Hpf. unfold getSafeDeploymentTransaction.
  unfold_monad. unfold member. rewrite Hsm. unfold_monad.
  rewrite Hfh. unfold_monad. unfold Result_bind.
  destruct (encodeABI _); [|reflexivity].
  rewrite Hpf. unfold_monad. rewrite Hsm. reflexivity.
Qed.

Lemma getSafeDeploymentTransaction_Return accounts n salt (w w' : World) tx :
  getSafeDeploymentTransaction accounts n salt w = (Return tx, w') →
  ∃ sm fh pf data,
    safeMaster w = Some sm ∧ fallbackHandler w = Some fh
    ∧ proxyFactoryMaster w = Some pf
    ∧ encodeABI (setupCall sm fh accounts n) = Return data
    ∧ tx = createProxyWithNonceCall pf (options_address sm) data salt
    ∧ w' = w.
Proof.
  unfold getSafeDeploymentTransaction. unfold_monad. unfold member.
  destruct (safeMaster w) as [sm|] eqn:Hsm; unfold_monad; [|discriminate].
  destruct (fallbackHandler w) as [fh|]; unfold_monad; [|discriminate].
  destruct (encodeABI _) as [data|] eqn:Hdata; [|discriminate].
  destruct (proxyFactoryMaster w) as [pf|]; unfold_monad; [|discriminate].
  rewrite ?Hsm. unfold_monad.
  intros [= <- <-]. by exists sm, fh, pf, data.
Qed.

(** C1. [estimateGasForDeployingSafe] resolves exactly when the deployment
    transaction is built and encoded and [calculateGasOf] resolves for the
    encoded data, sent from the user account to the proxy factory; the
    value it resolves to is 2 times the raw estimate [calculateGasOf]
    returned, for every list of owners, confirmation count, user account
    and salt. *)
Theorem estimateGasForDeployingSafe_doubles (safeAccounts : list string)
    (numConfirmations : Z) (userAccount : string) (safeCreationSalt : Z)
    (w w' : World) (value : Z) :
  estimateGasForDeployingSafe safeAccounts numConfirmations userAccount
    safeCreationSalt w = (Return value, w')
  ↔ ∃ tx proxyFactoryData pf raw,
      getSafeDeploymentTransaction safeAccounts numConfirmations
        safeCreationSalt w = (Return tx, w)
      ∧ encodeABI tx = Return proxyFactoryData
      ∧ proxyFactoryMaster w = Some pf
      ∧ calculateGasOf {| data := proxyFactoryData;
                          from := userAccount;
                          to := options_address pf |} = Return raw
      ∧ value = 2 * raw
      ∧ w' = w.
Proof.
  unfold estimateGasForDeployingSafe. split.
  - intros Hrun.
    apply bind_Return in Hrun as (proxyFactoryData & w1 & Hdata & Hrun).
    apply bind_Return in Hdata as (tx & w2 & Htx & Hdata).
    apply liftR_Return in Hdata as [Hdata ->].
    destruct (getSafeDeploymentTransaction_Return _ _ _ _ _ _ Htx)
      as (sm & fh & pf & _ & _ & _ & Hpf & _ & _ & ->).
    apply bind_Return in Hrun as (pf' & w3 & Hpf' & Hrun).
    apply bind_Return in Hpf' as (v & w4 & [= <- <-] & Hpf').
    apply member_Return in Hpf' as [Hv ->].
    rewrite Hpf in Hv. injection Hv as <-.
    apply bind_Return in Hrun as (raw & w5 & Hraw & [= <- <-]).
    apply liftR_Return in Hraw as [Hraw ->].
    exists tx, proxyFactoryData, pf, raw. repeat split; try done. lia.
  - intros (tx & proxyFactoryData & pf & raw & Htx & Hdata & Hpf & Hraw
            & -> & ->).
    apply bind_Return. exists proxyFactoryData, w. split.
    { apply bind_Return. exists tx, w. split; [done|].
      by apply liftR_Return. }
    apply bind_Return. exists pf, w. split.
    { apply bind_Return. exists (Some pf), w. split.
      - unfold read. by rewrite Hpf.
      - by apply member_Return. }
    apply bind_Return. exists raw, w. split; [by apply liftR_Return|].
    unfold mret, M_ret. do 2 f_equal. lia.
Qed.

(** C8. On every chain of the table [getGnosisSafeContractInstance] builds
    the master-copy handle from the [GnosisSafeL2] interface and the chain's
    [GnosisSafeL2] address, the only singleton address the table has; the
    chain's configuration and its [l2] flag are not consulted. Once
    [instantiateSafeContracts] has cached that handle, the transaction
    [getSafeDeploymentTransaction] builds is a [createProxyWithNonce] call
    whose singleton argument is that [GnosisSafeL2] address. *)
Theorem safe_master_is_GnosisSafeL2 (web3 : Web3) (chainId : string)
    (d : ContractDeployment) :
  contracts !! chainId = Some d →
  getGnosisSafeContractInstance web3 chainId
  = eth_Contract web3 GnosisSafeL2ABI (Some (GnosisSafeL2 d))
  ∧ ∀ (w : World) pf sm fh ms accounts n salt,
      storeWeb3 w = web3 →
      storeChainId w = chainId →
      eth_Contract web3 ProxyFactoryABI (Some (GnosisSafeProxyFactory d))
      = Return pf →
      eth_Contract web3 GnosisSafeL2ABI (Some (GnosisSafeL2 d)) = Return sm →
      eth_Contract web3 FallBackHandlerABI
        (Some (CompatibilityFallbackHandler d)) = Return fh →
      eth_Contract web3 MultiSendDeploymentABI (Some (MultiSend d))
      = Return ms →
      options_address sm = GnosisSafeL2 d →
      ∃ w', instantiateSafeContracts w = (Return (), w')
        ∧ safeMaster w' = Some sm
        ∧ getSafeDeploymentTransaction accounts n salt w'
          = (data ← encodeABI (setupCall sm fh accounts n);
             Return (createProxyWithNonceCall pf (GnosisSafeL2 d) data salt),
             w').
Proof.
  intros Hd. split; [by apply getGnosisSafeContractInstance_own|].
  intros w pf sm fh ms accounts n salt <- <- Hpf Hsm Hfh Hms Haddr.
  exists (withHandles pf sm fh ms w). split; [|split].
  - by apply (instantiateSafeContracts_run w d).
  - reflexivity.
  - rewrite <- Haddr. by apply getSafeDeploymentTransaction_run.
Qed.


(** ** Resolving a deployment *)

Lemma firstFound_None {D} (get : DeploymentFilter → option D)
    (lookups : list DeploymentFilter) :
  (firstFound get lookups).1 = None ↔ Forall (λ f, get f = None) lookups.
Proof.
  induction lookups as [|f rest IH]; cbn.
  - split; [constructor | done].
  - destruct (get f) as [d|] eqn:Hf; cbn.
    + split; [discriminate|]. intros H. inversion H; congruence.
    + destruct (firstFound get rest) as [r made]; cbn in *.
      rewrite IH. split.
      * by constructor.
      * intros H. by inversion H.
Qed.

Lemma firstFound_made_prefix {D} (get : DeploymentFilter → option D)
    (lookups : list DeploymentFilter) :
  (firstFound get lookups).2 `prefix_of` lookups.
Proof.
  induction lookups as [|f rest IH]; cbn; [done|].
  destruct (get f) as [d|].
  - by exists rest.
  - destruct (firstFound get rest) as [r made]; cbn in *.
    by apply prefix_cons.
Qed.

Lemma firstFound_made_nonempty {D} (get : DeploymentFilter → option D)
    (f : DeploymentFilter) (rest : list DeploymentFilter) :
  (firstFound get (f :: rest)).2 ≠ [].
Proof.
  cbn. destruct (get f); [done|]. by destruct (firstFound get rest).
Qed.

Lemma getSafeContractDeployment_run (safeVersion : string) (w : World) :
  let g :=
    if l2 (getChainById (storeChainId w))
       && semverSatisfies safeVersion ">=1.3.0"
    then getSafeL2SingletonDeployment_ else getSafeSingletonDeployment_ in
  let found :=
    firstFound (getterFunction g)
      (applicableLookups safeVersion (storeChainId w)) in
  getSafeContractDeployment safeVersion w
  = (Return found.1,
     set_deploymentCalls (deploymentCalls w ++ (pair g <$> found.2)) w).
Proof.
  intros g. unfold getSafeContractDeployment, or_else, callGetter,
    applicableLookups.
  unfold_monad. fold g. cbn [app firstFound].
  destruct (getterFunction g _) as [d1|]; [reflexivity|].
  destruct (getterFunction g _) as [d2|].
  { cbn. unfold set_deploymentCalls. cbn. by rewrite <- app_assoc. }
  destruct (semverSatisfies safeVersion "<1.0.0"); cbn [firstFound].
  - destruct (getterFunction g _) as [d3|];
      cbn; unfold set_deploymentCalls; cbn; by rewrite <- !app_assoc.
  - cbn. unfold set_deploymentCalls. cbn. by rewrite <- app_assoc.
Qed.

(** C4. [getSafeContractDeployment] makes its lookups with one getter, in
    the order network-specific, network-independent and, for a version
    below 1.0.0 only, version 1.0.0; it stops at the first lookup that
    finds a deployment and returns it, and returns [undefined] exactly when
    every applicable lookup fails. *)
Theorem getSafeContractDeployment_lookup_order (safeVersion : string)
    (w : World) :
  ∃ g,
    let lookups := applicableLookups safeVersion (storeChainId w) in
    let found := firstFound (getterFunction g) lookups in
    getSafeContractDeployment safeVersion w
    = (Return found.1,
       set_deploymentCalls (deploymentCalls w ++ (pair g <$> found.2)) w)
    ∧ found.2 `prefix_of` lookups
    ∧ (found.1 = None ↔ Forall (λ f, getterFunction g f = None) lookups)
    ∧ lookups
      = ([ {| version := Some safeVersion; network := Some (storeChainId w) |};
           {| version := Some safeVersion; network := None |} ]
         ++ (if semverSatisfies safeVersion "<1.0.0"
             then [ {| version := Some "1.0.0"; network := None |} ]
             else []))%list.
Proof.
  eexists. cbv zeta. split; [apply getSafeContractDeployment_run|].
  split; [apply firstFound_made_prefix|].
  split; [apply firstFound_None | reflexivity].
Qed.

(** C5. Every call [getSafeContractDeployment] makes goes to one getter,
    and it makes at least one: [getSafeL2SingletonDeployment] if the
    current chain's configuration is marked [l2] and the version satisfies
    [>=1.3.0], and [getSafeSingletonDeployment] in every other case. *)
Theorem getSafeContractDeployment_getter_choice (safeVersion : string)
    (w : World) :
  let useL2 :=
    l2 (getChainById (storeChainId w)) = true
    ∧ semverSatisfies safeVersion ">=1.3.0" = true in
  ∃ made,
    deploymentCalls (getSafeContractDeployment safeVersion w).2
    = (deploymentCalls w ++ made)%list
    ∧ made ≠ []
    ∧ ∀ g f, (g, f) ∈ made →
        (g = getSafeL2SingletonDeployment_ ↔ useL2)
        ∧ (g = getSafeSingletonDeployment_ ↔ ¬ useL2).
Proof.
  cbv zeta. rewrite getSafeContractDeployment_run. cbv zeta.
  set (g := if l2 (getChainById (storeChainId w))
               && semverSatisfies safeVersion ">=1.3.0"
            then getSafeL2SingletonDeployment_
            else getSafeSingletonDeployment_).
  set (found := firstFound _ _).
  exists (pair g <$> found.2). split; [reflexivity|]. split.
  - subst found. unfold applicableLookups. cbn [app].
    pose proof (firstFound_made_nonempty (getterFunction g)
      {| version := Some safeVersion; network := Some (storeChainId w) |})
      as Hne.
    intros Hnil. apply fmap_nil_inv in Hnil. by eapply Hne.
  - intros g' f Hin.
    apply list_elem_of_fmap in Hin as [f' [[= -> ->] _]]. subst g.
    destruct (l2 _), (semverSatisfies safeVersion ">=1.3.0"); cbn;
      intuition congruence.
Qed.

(** ** Reading the master copy of a proxy *)

Lemma getMasterCopyAddressFromProxyAddress_caught (proxyAddress : string)
    (w : World) (e : Thrown) :
  getSafeInfo proxyAddress = Throw e →
  getMasterCopyAddressFromProxyAddress proxyAddress w
  = (call_log e;; mret None) w.
Proof.
  intros He. unfold getMasterCopyAddressFromProxyAddress, try_catch.
  unfold_monad. rewrite He.
  destruct (call_log e w) as [[[]|e'] w1]; reflexivity.
Qed.

(** C6, as amended. When [getSafeInfo] raises an exception that carries a
    [log] method and that method returns, the function catches the
    exception, calls [log] on it and resolves to [undefined]: the caller
    gets a normal result, and the failure reaches only the log. *)
Theorem getMasterCopyAddressFromProxyAddress_recovers (proxyAddress : string)
    (w : World) (e : Thrown) log (c : list string) :
  getSafeInfo proxyAddress = Throw e →
  log_method e = Some log →
  log (console w) = (None, c) →
  getMasterCopyAddressFromProxyAddress proxyAddress w
  = (Return None, set_console c w).
Proof.
  intros He Hlog Hc.
  rewrite (getMasterCopyAddressFromProxyAddress_caught _ _ _ He).
  unfold call_log. rewrite Hlog. unfold_monad. by rewrite Hc.
Qed.

(** C10. When [getSafeInfo] raises an exception that has no [log] method,
    such as an ordinary [Error], the catch handler's call [e.log()] raises
    a [TypeError] of its own: the function rejects with that secondary
    error instead of resolving to [undefined]. *)
Theorem getMasterCopyAddressFromProxyAddress_handler_throws
    (proxyAddress : string) (w : World) (e : Thrown) :
  getSafeInfo proxyAddress = Throw e →
  log_method e = None →
  getMasterCopyAddressFromProxyAddress proxyAddress w
  = (Throw (TypeError "e.log is not a function"), w).
Proof.
  intros He Hlog.
  rewrite (getMasterCopyAddressFromProxyAddress_caught _ _ _ He).
  unfold call_log. rewrite Hlog. reflexivity.
Qed.

(** ** Further properties of the lookup functions and the table *)

Lemma contracts_at_off_table (chainId : string) :
  chainId ∉ dom contracts →
  contracts_at chainId
  = if bool_decide (chainId ∈ objectPrototypeProperties) then Inherited
    else Undefined.
Proof.
  intros H. apply not_elem_of_dom in H. unfold contracts_at. by rewrite H.
Qed.

Ltac lookup_off_table H :=
  rewrite (contracts_at_off_table _ H); unfold offTableError;
  case_bool_decide; reflexivity.

(** X1. Off the table, each lookup function throws the module's own "not
    found for chainId" error exactly when the identifier is the name of a
    property inherited from [Object.prototype]; for every other identifier
    it throws the [TypeError] of reading a property of [undefined]. Which of
    the two is thrown does not depend on the web3 instance, which is never
    used. *)
Theorem lookup_off_table_error (web3 : Web3) (chainId : string) :
  chainId ∉ dom contracts →
  getGnosisSafeContractInstance web3 chainId
  = Throw (offTableError "GnosisSafe" "GnosisSafeL2" chainId)
  ∧ getProxyFactoryContractInstance web3 chainId
    = Throw (offTableError "GnosisSafeProxyFactory" "GnosisSafeProxyFactory"
               chainId)
  ∧ getFallbackHandlerContractInstance web3 chainId
    = Throw (offTableError "FallbackHandler" "CompatibilityFallbackHandler"
               chainId)
  ∧ getMultiSendContractInstance web3 chainId
    = Throw (offTableError "MultiSend" "MultiSend" chainId)
  ∧ getSignMessageLibAddress chainId
    = Throw (offTableError "SignMessageLib" "SignMessageLib" chainId)
  ∧ getSignMessageLibContractInstance web3 chainId
    = Throw (offTableError "SignMessageLib" "SignMessageLib" chainId)
  ∧ ∀ label name,
      reportsMissingConfiguration label chainId
        (offTableError label name chainId)
      ↔ chainId ∈ objectPrototypeProperties.
Proof.
  intros H.
  unfold getGnosisSafeContractInstance, getProxyFactoryContractInstance,
    getFallbackHandlerContractInstance, getMultiSendContractInstance,
    getSignMessageLibAddress, getSignMessageLibContractInstance.
  repeat split; try lookup_off_table H.
  - unfold offTableError, reportsMissingConfiguration, undefinedRead.
    case_bool_decide; [done | discriminate].
  - intros Hin. unfold offTableError, reportsMissingConfiguration.
    by rewrite bool_decide_eq_true_2.
Qed.

(** X2. Every address the table records has the shape of an address, [0x]
    followed by forty hexadecimal digits, and no address is recorded twice:
    an address of the table determines the chain and the contract it is
    recorded for. *)
Theorem table_addresses_shaped_and_distinct (c1 c2 : string)
    (d1 d2 : ContractDeployment) (n1 n2 : ContractName) :
  contracts !! c1 = Some d1 →
  contracts !! c2 = Some d2 →
  addressShaped (property n1 d1) = true
  ∧ (property n1 d1 = property n2 d2 → c1 = c2 ∧ n1 = n2).
Proof.
  intros H1 H2.
  destruct (contracts_lookup_Some _ _ H1) as [-> | ->];
    destruct (contracts_lookup_Some _ _ H2) as [-> | ->];
    vm_compute in H1; vm_compute in H2;
    injection H1 as <-; injection H2 as <-;
    (split; [by destruct n1 |]);
    destruct n1, n2; cbn [property MultiSend CompatibilityFallbackHandler
                            GnosisSafeProxyFactory GnosisSafeL2
                            SignMessageLib];
    intros Heq; first [done | discriminate Heq].
Qed.

(** X3. The [SignMessageLib] instance is built from exactly the address
    [getSignMessageLibAddress] returns, and where that function throws,
    [getSignMessageLibContractInstance] throws the same error, for every
    chain identifier and web3 instance. *)
Theorem getSignMessageLibContractInstance_from_address (web3 : Web3)
    (chainId : string) :
  getSignMessageLibContractInstance web3 chainId
  = (contractAddress ← getSignMessageLibAddress chainId;
     eth_Contract web3 SignMessageLibABI contractAddress).
Proof.
  unfold getSignMessageLibContractInstance, getSignMessageLibAddress.
  destruct (readProperty (contracts_at chainId) SignMessageLib_)
    as [contractAddress|e]; cbn [mbind Result_bind]; [|reflexivity].
  by destruct (not_ contractAddress).
Qed.

(** ** Further properties of the cached handles and their readers *)

Lemma getSafeDeploymentTransaction_outcome accounts n salt (w : World) :
  getSafeDeploymentTransaction accounts n salt w
  = (match safeMaster w, fallbackHandler w with
     | None, _ => Throw (undefinedRead "methods")
     | Some sm, None => Throw (undefinedRead "options")
     | Some sm, Some fh =>
         data ← encodeABI (setupCall sm fh accounts n);
         match proxyFactoryMaster w with
         | None => Throw (undefinedRead "methods")
         | Some pf =>
             Return (createProxyWithNonceCall pf (options_address sm) data
                       salt)
         end
     end, w).
Proof.
  unfold getSafeDeploymentTransaction. unfold_monad. unfold member.
  destruct (safeMaster w) as [sm|] eqn:Hsm; unfold_monad; [|reflexivity].
  destruct (fallbackHandler w) as [fh|]; unfold_monad; [|reflexivity].
  unfold Result_bind. destruct (encodeABI _) as [data|]; [|reflexivity].
  destruct (proxyFactoryMaster w) as [pf|]; unfold_monad; [|reflexivity].
  rewrite Hsm. reflexivity.
Qed.

Lemma estimateGasForDeployingSafe_outcome accounts n user salt (w : World) :
  estimateGasForDeployingSafe accounts n user salt w
  = (tx ← (getSafeDeploymentTransaction accounts n salt w).1;
     proxyFactoryData ← encodeABI tx;
     match proxyFactoryMaster w with
     | None => Throw (undefinedRead "options")
     | Some pf =>
         value ← calculateGasOf {| data := proxyFactoryData; from := user;
                                   to := options_address pf |};
         Return (value * 2)
     end, w).
Proof.
  unfold estimateGasForDeployingSafe.
  rewrite getSafeDeploymentTransaction_outcome. unfold_monad.
  rewrite getSafeDeploymentTransaction_outcome.
  unfold mbind, Result_bind, member. cbn [fst].
  destruct (safeMaster w) as [sm|]; [|reflexivity].
  destruct (fallbackHandler w) as [fh|]; [|reflexivity].
  destruct (encodeABI (setupCall sm fh accounts n)) as [gnosisSafeData|];
    [|reflexivity].
  destruct (proxyFactoryMaster w) as [pf|] eqn:Hpf; [|reflexivity].
  cbv beta iota.
  destruct (encodeABI _) as [proxyFactoryData|]; [|reflexivity].
  rewrite Hpf. unfold_monad. by destruct (calculateGasOf _).
Qed.

Lemma address_reader_outcome (handle : World → option Contract) (w : World) :
  (c ← read handle ≫= λ v, member v "options"; mret (options_address c)) w
  = (match handle w with
     | Some c => Return (options_address c)
     | None => Throw (undefinedRead "options")
     end, w).
Proof.
  unfold_monad. unfold member. by destruct (handle w).
Qed.

(** X4. The functions that only read the cached handles never modify
    anything: whether they return or throw, the module variables, the store,
    the console and the recorded getter calls are as before the call. *)
Theorem handle_readers_change_nothing (accounts : list string) (n : Z)
    (user : string) (salt : Z) (w : World) :
  (getSafeDeploymentTransaction accounts n salt w).2 = w
  ∧ (estimateGasForDeployingSafe accounts n user salt w).2 = w
  ∧ (getSafeMasterContractAddress w).2 = w
  ∧ (getFallbackHandlerContractAddress w).2 = w
  ∧ (getMultisendContract w).2 = w
  ∧ (getMultisendContractAddress w).2 = w.
Proof.
  rewrite getSafeDeploymentTransaction_outcome,
    estimateGasForDeployingSafe_outcome.
  unfold getSafeMasterContractAddress, getFallbackHandlerContractAddress,
    getMultisendContractAddress.
  rewrite !address_reader_outcome. done.
Qed.

(** X5. Before anything is instantiated, that is while the four module
    variables are still [undefined], every function that dereferences a
    handle throws a [TypeError]: the three address getters, the deployment
    transaction builder and the gas estimate; [getMultisendContract] alone
    returns normally, with [undefined]. *)
Theorem uninstantiated_handles_throw (accounts : list string) (n : Z)
    (user : string) (salt : Z) (w : World) :
  proxyFactoryMaster w = None →
  safeMaster w = None →
  fallbackHandler w = None →
  multiSend w = None →
  getSafeMasterContractAddress w = (Throw (undefinedRead "options"), w)
  ∧ getFallbackHandlerContractAddress w
    = (Throw (undefinedRead "options"), w)
  ∧ getMultisendContractAddress w = (Throw (undefinedRead "options"), w)
  ∧ getMultisendContract w = (Return None, w)
  ∧ getSafeDeploymentTransaction accounts n salt w
    = (Throw (undefinedRead "methods"), w)
  ∧ estimateGasForDeployingSafe accounts n user salt w
    = (Throw (undefinedRead "methods"), w).
Proof.
  intros Hpf Hsm Hfh Hms.
  rewrite estimateGasForDeployingSafe_outcome,
    getSafeDeploymentTransaction_outcome.
  unfold getSafeMasterContractAddress, getFallbackHandlerContractAddress,
    getMultisendContractAddress, getMultisendContract.
  rewrite !address_reader_outcome. unfold read.
  rewrite Hpf, Hsm, Hfh, Hms. done.
Qed.

(** X6. [estimateGasForDeployingSafe] adds no failure of its own and hides
    none: whenever it rejects, the value it rejects with is the one thrown
    by building the transaction, by encoding it, or by [calculateGasOf],
    passed on unchanged. *)
Theorem estimateGasForDeployingSafe_rejection (accounts : list string)
    (n : Z) (user : string) (salt : Z) (w w' : World) (e : Thrown) :
  estimateGasForDeployingSafe accounts n user salt w = (Throw e, w')
  ↔ w' = w
    ∧ (getSafeDeploymentTransaction accounts n salt w = (Throw e, w)
       ∨ ∃ tx,
           getSafeDeploymentTransaction accounts n salt w = (Return tx, w)
           ∧ (encodeABI tx = Throw e
              ∨ ∃ proxyFactoryData pf,
                  encodeABI tx = Return proxyFactoryData
                  ∧ proxyFactoryMaster w = Some pf
                  ∧ calculateGasOf {| data := proxyFactoryData; from := user;
                                      to := options_address pf |}
                    = Throw e)).
Proof.
  rewrite estimateGasForDeployingSafe_outcome.
  assert (Hframe : (getSafeDeploymentTransaction accounts n salt w).2 = w)
    by (by rewrite getSafeDeploymentTransaction_outcome).
  split.
  - destruct (getSafeDeploymentTransaction accounts n salt w)
      as [[tx|e0] w0] eqn:Htx; cbn [fst snd mbind Result_bind] in *; subst w0.
    + destruct (encodeABI tx) as [proxyFactoryData|e1] eqn:Henc;
        cbn [mbind Result_bind].
      * destruct (getSafeDeploymentTransaction_Return _ _ _ _ _ _ Htx)
          as (sm & fh & pf & _ & _ & _ & Hpf & _).
        rewrite Hpf.
        destruct (calculateGasOf {| data := proxyFactoryData; from := user;
                                    to := options_address pf |})
          as [raw|e2] eqn:Hraw; cbn [mbind Result_bind]; [discriminate|].
        intros [= <- <-]. split; [done|]. right. exists tx. split; [done|].
        right. by exists proxyFactoryData, pf.
      * intros [= <- <-]. split; [done|]. right. exists tx. split; [done|].
        by left.
    + intros [= <- <-]. split; [done|]. by left.
  - intros (-> & [Htx | (tx & Htx & [Henc | (d & pf & Henc & Hpf & Hraw)])]);
      rewrite Htx; cbn [fst mbind Result_bind]; rewrite ?Henc;
      cbn [mbind Result_bind]; rewrite ?Hpf, ?Hraw; reflexivity.
Qed.

(** X7. The deployment transaction and its gas estimate are built from the
    cached handles alone: in two worlds that hold the same three handles
    they have the same outcome, whatever chain is selected now. A handle
    cached for one chain keeps being used after another chain is
    selected. *)
Theorem deployment_uses_cached_handles (accounts : list string) (n : Z)
    (user : string) (salt : Z) (w1 w2 : World) :
  proxyFactoryMaster w1 = proxyFactoryMaster w2 →
  safeMaster w1 = safeMaster w2 →
  fallbackHandler w1 = fallbackHandler w2 →
  (getSafeDeploymentTransaction accounts n salt w1).1
  = (getSafeDeploymentTransaction accounts n salt w2).1
  ∧ (estimateGasForDeployingSafe accounts n user salt w1).1
    = (estimateGasForDeployingSafe accounts n user salt w2).1.
Proof.
  intros Hpf Hsm Hfh.
  rewrite !estimateGasForDeployingSafe_outcome,
    !getSafeDeploymentTransaction_outcome.
  cbn [fst]. by rewrite Hpf, Hsm, Hfh.
Qed.

(** ** Further properties of instantiation *)

Lemma instantiateSafeContracts_outcome (w : World) :
  instantiateSafeContracts w
  = match getProxyFactoryContractInstance (storeWeb3 w) (storeChainId w) with
    | Throw e => (Throw e, w)
    | Return pf =>
        match getGnosisSafeContractInstance (storeWeb3 w) (storeChainId w) with
        | Throw e => (Throw e, set_proxyFactoryMaster pf w)
        | Return sm =>
            match getFallbackHandlerContractInstance (storeWeb3 w)
                    (storeChainId w) with
            | Throw e =>
                (Throw e, set_safeMaster sm (set_proxyFactoryMaster pf w))
            | Return fh =>
                match getMultiSendContractInstance (storeWeb3 w)
                        (storeChainId w) with
                | Throw e =>
                    (Throw e,
                     set_fallbackHandler fh
                       (set_safeMaster sm (set_proxyFactoryMaster pf w)))
                | Return ms => (Return (), withHandles pf sm fh ms w)
                end
            end
        end
    end.
Proof.
  unfold instantiateSafeContracts. unfold_monad.
  destruct (getProxyFactoryContractInstance _ _); [|reflexivity].
  destruct (getGnosisSafeContractInstance _ _); [|reflexivity].
  destruct (getFallbackHandlerContractInstance _ _); [|reflexivity].
  destruct (getMultiSendContractInstance _ _); reflexivity.
Qed.

(** X8. [getSafeMasterContract] never hands out a handle cached earlier: it
    returns exactly when re-instantiation succeeds for the chain selected
    now, the handle it returns is the one just built from that chain's
    [GnosisSafeL2] address, and as a side effect all four cached handles are
    replaced. For a chain outside the table it throws, even when a handle
    is cached. *)
Theorem getSafeMasterContract_reinstantiates (w : World) :
  (∀ v w', getSafeMasterContract w = (Return v, w')
     ↔ ∃ d pf sm fh ms,
         contracts !! storeChainId w = Some d
         ∧ eth_Contract (storeWeb3 w) ProxyFactoryABI
             (Some (GnosisSafeProxyFactory d)) = Return pf
         ∧ eth_Contract (storeWeb3 w) GnosisSafeL2ABI (Some (GnosisSafeL2 d))
           = Return sm
         ∧ eth_Contract (storeWeb3 w) FallBackHandlerABI
             (Some (CompatibilityFallbackHandler d)) = Return fh
         ∧ eth_Contract (storeWeb3 w) MultiSendDeploymentABI
             (Some (MultiSend d)) = Return ms
         ∧ v = Some sm
         ∧ w' = withHandles pf sm fh ms w)
  ∧ ((storeChainId w ∉ dom contracts) →
     ∃ e, getSafeMasterContract w = (Throw e, w)).
Proof.
  unfold getSafeMasterContract. split.
  - intros v w'. rewrite bind_Return. split.
    + intros ([] & w1 & Hrun & [= <- <-]).
      destruct (instantiateSafeContracts_Return _ _ Hrun)
        as (d & pf & sm & fh & ms & Hd & Hpf & Hsm & Hfh & Hms & ->).
      by exists d, pf, sm, fh, ms.
    + intros (d & pf & sm & fh & ms & Hd & Hpf & Hsm & Hfh & Hms & -> & ->).
      exists (), (withHandles pf sm fh ms w). split; [|reflexivity].
      by apply (instantiateSafeContracts_run w d).
  - intros H. destruct (instantiateSafeContracts_off_table w H) as [e He].
    exists e. unfold mbind, M_bind. by rewrite He.
Qed.

(** X9. After [instantiateSafeContracts] has returned, the address getters
    read back what it cached: the addresses of the instances web3 built
    from the selected chain's [GnosisSafeL2], [CompatibilityFallbackHandler]
    and [MultiSend] entries, and [getMultisendContract] returns the
    [MultiSend] instance itself. *)
Theorem getters_read_back_instantiation (w w' : World) :
  instantiateSafeContracts w = (Return (), w') →
  ∃ d sm fh ms,
    contracts !! storeChainId w = Some d
    ∧ eth_Contract (storeWeb3 w) GnosisSafeL2ABI (Some (GnosisSafeL2 d))
      = Return sm
    ∧ eth_Contract (storeWeb3 w) FallBackHandlerABI
        (Some (CompatibilityFallbackHandler d)) = Return fh
    ∧ eth_Contract (storeWeb3 w) MultiSendDeploymentABI (Some (MultiSend d))
      = Return ms
    ∧ getSafeMasterContractAddress w' = (Return (options_address sm), w')
    ∧ getFallbackHandlerContractAddress w'
      = (Return (options_address fh), w')
    ∧ getMultisendContract w' = (Return (Some ms), w')
    ∧ getMultisendContractAddress w' = (Return (options_address ms), w').
Proof.
  intros Hrun.
  destruct (instantiateSafeContracts_Return _ _ Hrun)
    as (d & pf & sm & fh & ms & Hd & Hpf & Hsm & Hfh & Hms & ->).
  exists d, sm, fh, ms. repeat (split; [done|]).
  unfold getSafeMasterContractAddress, getFallbackHandlerContractAddress,
    getMultisendContractAddress.
  rewrite !address_reader_outcome. done.
Qed.

(** X10. Instantiating twice in a row is the same as instantiating once: a
    second call right after a call that returned returns too and leaves the
    world exactly as the first call left it. *)
Theorem instantiateSafeContracts_idempotent (w w' : World) :
  instantiateSafeContracts w = (Return (), w') →
  instantiateSafeContracts w' = (Return (), w').
Proof.
  intros Hrun.
  destruct (instantiateSafeContracts_Return _ _ Hrun)
    as (d & pf & sm & fh & ms & Hd & Hpf & Hsm & Hfh & Hms & ->).
  exact (instantiateSafeContracts_run (withHandles pf sm fh ms w) d pf sm fh
           ms Hd Hpf Hsm Hfh Hms).
Qed.

(** X11. What [instantiateSafeContracts] caches is decided by the selected
    chain and the web3 instance alone: in two worlds that agree on these it
    has the same outcome, and when it returns, the four handles it leaves
    are the same whatever was cached before. *)
Theorem instantiateSafeContracts_last_write_wins (w1 w2 : World) :
  storeChainId w1 = storeChainId w2 →
  storeWeb3 w1 = storeWeb3 w2 →
  (instantiateSafeContracts w1).1 = (instantiateSafeContracts w2).1
  ∧ ((instantiateSafeContracts w1).1 = Return () →
     sameHandles (instantiateSafeContracts w1).2
       (instantiateSafeContracts w2).2).
Proof.
  intros Hc Hw. rewrite !instantiateSafeContracts_outcome, <- Hc, <- Hw.
  destruct (getProxyFactoryContractInstance _ _); [|done].
  destruct (getGnosisSafeContractInstance _ _); [|done].
  destruct (getFallbackHandlerContractInstance _ _); [|done].
  destruct (getMultiSendContractInstance _ _); done.
Qed.

(** X12. Instantiation is not atomic. On a chain of the table the four
    handles are assigned one after the other, so when web3 fails to build
    one instance the call throws web3's error with the handles built before
    it already replaced and the remaining ones still as they were. *)
Theorem instantiateSafeContracts_not_atomic (w : World)
    (d : ContractDeployment) (e : Thrown) :
  contracts !! storeChainId w = Some d →
  let build abi address := eth_Contract (storeWeb3 w) abi (Some address) in
  (build ProxyFactoryABI (GnosisSafeProxyFactory d) = Throw e →
   instantiateSafeContracts w = (Throw e, w))
  ∧ (∀ pf,
       build ProxyFactoryABI (GnosisSafeProxyFactory d) = Return pf →
       build GnosisSafeL2ABI (GnosisSafeL2 d) = Throw e →
       instantiateSafeContracts w = (Throw e, set_proxyFactoryMaster pf w))
  ∧ (∀ pf sm,
       build ProxyFactoryABI (GnosisSafeProxyFactory d) = Return pf →
       build GnosisSafeL2ABI (GnosisSafeL2 d) = Return sm →
       build FallBackHandlerABI (CompatibilityFallbackHandler d) = Throw e →
       instantiateSafeContracts w
       = (Throw e, set_safeMaster sm (set_proxyFactoryMaster pf w)))
  ∧ (∀ pf sm fh,
       build ProxyFactoryABI (GnosisSafeProxyFactory d) = Return pf →
       build GnosisSafeL2ABI (GnosisSafeL2 d) = Return sm →
       build FallBackHandlerABI (CompatibilityFallbackHandler d) = Return fh →
       build MultiSendDeploymentABI (MultiSend d) = Throw e →
       instantiateSafeContracts w
       = (Throw e,
          set_fallbackHandler fh
            (set_safeMaster sm (set_proxyFactoryMaster pf w)))).
Proof.
  intros Hd build. subst build. cbv beta.
  rewrite instantiateSafeContracts_outcome.
  rewrite (getProxyFactoryContractInstance_own _ _ _ Hd),
    (getGnosisSafeContractInstance_own _ _ _ Hd),
    (getFallbackHandlerContractInstance_own _ _ _ Hd),
    (getMultiSendContractInstance_own _ _ _ Hd).
  repeat split.
  - by intros ->.
  - by intros pf -> ->.
  - by intros pf sm -> -> ->.
  - by intros pf sm fh -> -> -> ->.
Qed.

(** ** Further properties of the master copy lookup *)

(** X13. When [getSafeInfo] resolves, [getMasterCopyAddressFromProxyAddress]
    resolves to the implementation address exactly as the gateway gave it,
    also when it is [undefined] or empty; in that case, and only then, one
    error line naming the proxy is written to the console. *)
Theorem getMasterCopyAddressFromProxyAddress_resolved (proxyAddress : string)
    (w : World) (res : SafeInfo) :
  getSafeInfo proxyAddress = Return res →
  getMasterCopyAddressFromProxyAddress proxyAddress w
  = (Return (implementation_value res),
     if not_ (implementation_value res) then
       set_console
         (console w
          ++ ["There was not possible to get masterCopy address from proxy "
              +:+ proxyAddress +:+ "."]) w
     else w).
Proof.
  intros Hres. unfold getMasterCopyAddressFromProxyAddress, try_catch.
  unfold_monad. rewrite Hres.
  by destruct (not_ (implementation_value res)).
Qed.


(** ** Further properties of resolving a deployment *)

Lemma firstFound_Some {D} (get : DeploymentFilter → option D)
    (lookups : list DeploymentFilter) (d : D) :
  (firstFound get lookups).1 = Some d →
  ∃ f, last (firstFound get lookups).2 = Some f ∧ get f = Some d.
Proof.
  induction lookups as [|f rest IH]; cbn; [discriminate|].
  destruct (get f) as [d'|] eqn:Hf; cbn.
  - intros [= <-]. by exists f.
  - destruct (firstFound get rest) as [r made] eqn:Hrest; cbn in *.
    intros Hr. destruct (IH Hr) as (f' & Hlast & Hf'). exists f'.
    split; [|done]. destruct made as [|f0 made]; [discriminate|].
    exact Hlast.
Qed.

Lemma firstFound_made_None {D} (get : DeploymentFilter → option D)
    (lookups : list DeploymentFilter) :
  (firstFound get lookups).1 = None →
  (firstFound get lookups).2 = lookups.
Proof.
  induction lookups as [|f rest IH]; cbn; [done|].
  destruct (get f) as [d|]; cbn; [discriminate|].
  destruct (firstFound get rest) as [r made]; cbn in *.
  intros Hr. by rewrite (IH Hr).
Qed.

(** X15. [getSafeContractDeployment] never throws and touches neither the
    handles, the store nor the console. It makes between one and three
    getter calls, at most two for a version that is not below 1.0.0. A
    deployment it returns is the answer to the last call it made, and when
    it returns [undefined] every call it made, which then are all the
    applicable ones, was answered [undefined]. *)
Theorem getSafeContractDeployment_provenance (safeVersion : string)
    (w : World) :
  ∃ found g made,
    getSafeContractDeployment safeVersion w
    = (Return found,
       set_deploymentCalls (deploymentCalls w ++ (pair g <$> made)) w)
    ∧ (1 ≤ length made ≤ 3)%nat
    ∧ (semverSatisfies safeVersion "<1.0.0" = false → (length made ≤ 2)%nat)
    ∧ (∀ d, found = Some d →
         ∃ f, last made = Some f ∧ getterFunction g f = Some d)
    ∧ (found = None →
       made = applicableLookups safeVersion (storeChainId w)
       ∧ Forall (λ f, getterFunction g f = None) made).
Proof.
  pose proof (getSafeContractDeployment_run safeVersion w) as Hrun.
  cbv zeta in Hrun.
  set (g := if l2 (getChainById (storeChainId w))
               && semverSatisfies safeVersion ">=1.3.0"
            then getSafeL2SingletonDeployment_
            else getSafeSingletonDeployment_) in *.
  set (lookups := applicableLookups safeVersion (storeChainId w)) in *.
  exists (firstFound (getterFunction g) lookups).1, g,
    (firstFound (getterFunction g) lookups).2.
  split; [exact Hrun|].
  pose proof (firstFound_made_prefix (getterFunction g) lookups) as Hpre.
  apply prefix_length in Hpre.
  assert (Hlen : (length lookups ≤ 3)%nat
                 ∧ (semverSatisfies safeVersion "<1.0.0" = false →
                    length lookups ≤ 2)%nat).
  { subst lookups. unfold applicableLookups.
    destruct (semverSatisfies safeVersion "<1.0.0"); cbn; split; intros;
      first [done | lia]. }
  destruct Hlen as [Hlen3 Hlen2].
  split; [split; [|lia]|].
  { pose proof (firstFound_made_nonempty (getterFunction g)
      {| version := Some safeVersion; network := Some (storeChainId w) |}
      ([ {| version := Some safeVersion; network := None |} ]
       ++ (if semverSatisfies safeVersion "<1.0.0"
           then [ {| version := Some "1.0.0"; network := None |} ]
           else []))%list) as Hne.
    change ((firstFound (getterFunction g) lookups).2 ≠ []) in Hne.
    destruct (firstFound (getterFunction g) lookups).2; [done | cbn; lia]. }
  split; [intros Hlt; specialize (Hlen2 Hlt); lia|].
  split; [intros d; apply firstFound_Some|].
  intros Hnone. split; [by apply firstFound_made_None|].
  rewrite (firstFound_made_None _ _ Hnone). by apply firstFound_None.
Qed.


(** X17. After [instantiateSafeContracts] has returned, the gas estimate is
    asked for the encoding of a [createProxyWithNonce] call on the proxy
    factory built for the selected chain, creating a proxy of the master
    copy built for that chain, sent from the user account to that proxy
    factory; whatever the node answers is doubled, and a failure of the
    encoder or the node is passed on. *)
Theorem estimateGasForDeployingSafe_after_instantiation
    (accounts : list string) (n : Z) (user : string) (salt : Z)
    (w w' : World) :
  instantiateSafeContracts w = (Return (), w') →
  ∃ d pf sm fh,
    contracts !! storeChainId w = Some d
    ∧ eth_Contract (storeWeb3 w) ProxyFactoryABI
        (Some (GnosisSafeProxyFactory d)) = Return pf
    ∧ eth_Contract (storeWeb3 w) GnosisSafeL2ABI (Some (GnosisSafeL2 d))
      = Return sm
    ∧ eth_Contract (storeWeb3 w) FallBackHandlerABI
        (Some (CompatibilityFallbackHandler d)) = Return fh
    ∧ estimateGasForDeployingSafe accounts n user salt w'
      = (gnosisSafeData ← encodeABI (setupCall sm fh accounts n);
         proxyFactoryData ←
           encodeABI (createProxyWithNonceCall pf (options_address sm)
                        gnosisSafeData salt);
         value ← calculateGasOf {| data := proxyFactoryData; from := user;
                                   to := options_address pf |};
         Return (value * 2),
         w').
Proof.
  intros Hrun.
  destruct (instantiateSafeContracts_Return _ _ Hrun)
    as (d & pf & sm & fh & ms & Hd & Hpf & Hsm & Hfh & Hms & ->).
  exists d, pf, sm, fh. repeat (split; [done|]).
  rewrite estimateGasForDeployingSafe_outcome,
    getSafeDeploymentTransaction_outcome.
  cbn [fst withHandles set_multiSend set_fallbackHandler set_safeMaster
       set_proxyFactoryMaster proxyFactoryMaster safeMaster fallbackHandler].
  unfold mbind, Result_bind.
  by destruct (encodeABI (setupCall sm fh accounts n)).
Qed.

End SafeContracts.

(** ** The module at work in the reference environment *)

Example lookup_57 :
  getSignMessageLibAddress "57"
  = Return (Some "0x90305FB725E56e042E8f4078e85e02408cA5D4E0").
Proof. vm_compute. reflexivity. Qed.

(** A name inherited from [Object.prototype] reaches the guard, so the
    module's own error is thrown for it. *)
Example lookup_constructor :
  getSignMessageLibAddress "constructor"
  = Throw (Error "SignMessageLib contract not found for chainId: constructor")
  ∧ reportsMissingConfiguration "SignMessageLib" "constructor"
      (Error "SignMessageLib contract not found for chainId: constructor").
Proof. split; vm_compute; reflexivity. Qed.

(** Version 0.0.1 is below 1.0.0: after two failed lookups the legacy
    getter is asked for 1.0.0. *)
Example deployment_of_0_0_1 :
  let w := Reference.initial "57" in
  getSafeContractDeployment Reference.semverSatisfies string
    Reference.getSafeSingletonDeployment
    Reference.getSafeL2SingletonDeployment Reference.getChainById "0.0.1" w
  = (Return (Some "L1 1.0.0"),
     set_deploymentCalls
       [ (getSafeSingletonDeployment_,
          {| version := Some "0.0.1"; network := Some "57" |});
         (getSafeSingletonDeployment_,
          {| version := Some "0.0.1"; network := None |});
         (getSafeSingletonDeployment_,
          {| version := Some "1.0.0"; network := None |}) ] w).
Proof. vm_compute. reflexivity. Qed.

(** Version 1.3.0 on an L2 chain goes to the L2 getter, whose first lookup
    succeeds. *)
Example deployment_of_1_3_0_on_l2 :
  let w := Reference.initial "57" in
  getSafeContractDeployment Reference.semverSatisfies string
    Reference.getSafeSingletonDeployment
    Reference.getSafeL2SingletonDeployment Reference.getChainById "1.3.0" w
  = (Return (Some "L2 1.3.0"),
     set_deploymentCalls
       [ (getSafeL2SingletonDeployment_,
          {| version := Some "1.3.0"; network := Some "57" |}) ] w).
Proof. vm_compute. reflexivity. Qed.

(** The same version on a chain that is not L2 goes to the legacy getter. *)
Example deployment_of_1_3_0_on_l1 :
  let w := Reference.initial "1" in
  getSafeContractDeployment Reference.semverSatisfies string
    Reference.getSafeSingletonDeployment
    Reference.getSafeL2SingletonDeployment Reference.getChainById "1.3.0" w
  = (Return (Some "L1 1.3.0"),
     set_deploymentCalls
       [ (getSafeSingletonDeployment_,
          {| version := Some "1.3.0"; network := Some "1" |}) ] w).
Proof. vm_compute. reflexivity. Qed.

(** An unknown version that is not below 1.0.0: two lookups, then
    [undefined]. *)
Example deployment_of_2_0_0 :
  let w := Reference.initial "57" in
  getSafeContractDeployment Reference.semverSatisfies string
    Reference.getSafeSingletonDeployment
    Reference.getSafeL2SingletonDeployment Reference.getChainById "2.0.0" w
  = (Return None,
     set_deploymentCalls
       [ (getSafeSingletonDeployment_,
          {| version := Some "2.0.0"; network := Some "57" |});
         (getSafeSingletonDeployment_,
          {| version := Some "2.0.0"; network := None |}) ] w).
Proof. vm_compute. reflexivity. Qed.

(** Before the handles are instantiated the transaction cannot be built. *)
Example deployment_transaction_before_instantiation :
  let w := Reference.initial "57" in
  getSafeDeploymentTransaction Reference.ZERO_ADDRESS Reference.EMPTY_DATA
    Reference.encodeABI ["0xA1"; "0xB2"] 2 7 w
  = (Throw (undefinedRead "methods"), w).
Proof. vm_compute. reflexivity. Qed.

(** An empty implementation address is reported on the console and
    returned as it is. *)
Example master_copy_empty :
  let w := Reference.initial "57" in
  getMasterCopyAddressFromProxyAddress
    (λ _, Return {| implementation_value := Some "" |}) "0xA1" w
  = (Return (Some ""),
     set_console
       ["There was not possible to get masterCopy address from proxy 0xA1."]
       w).
Proof. vm_compute. reflexivity. Qed.

(** Witness of C1: two owners, two confirmations, salt 7, on the handles of
    chain 57; the node estimates 53000 and the function resolves to
    106000. *)
Lemma estimateGasForDeployingSafe_doubles_witness :
  Reference.calculateGasOf
    {| data := "0xcreateProxyWithNonce"; from := "0xC3";
       to := "0x111dE2B36368ddDA41CCB0E335eb4a59A3750A1B" |} = Return 53000
  ∧ estimateGasForDeployingSafe Reference.ZERO_ADDRESS Reference.EMPTY_DATA
      Reference.encodeABI Reference.calculateGasOf ["0xA1"; "0xB2"] 2 "0xC3" 7
      Reference.instantiated57
    = (Return 106000, Reference.instantiated57).
Proof.
  split; [reflexivity|].
  apply estimateGasForDeployingSafe_doubles.
  eexists _, _, _, 53000. repeat apply conj; reflexivity.
Defined.

(** Witness of C3 on chain 57. *)
Lemma supported_chain_lookups_succeed_witness :
  "57" ∈ dom contracts
  ∧ dom contracts = {[ "57"; "5700" ]}
  ∧ ∃ d, contracts !! "57" = Some d
    ∧ (∀ n, readProperty (contracts_at "57") n = Return (Some (property n d))
          ∧ property n d ≠ ""
          ∧ not_ (Some (property n d)) = false)
    ∧ getSignMessageLibAddress "57" = Return (Some (SignMessageLib d))
    ∧ ∀ web3,
        getGnosisSafeContractInstance web3 "57"
        = eth_Contract web3 GnosisSafeL2ABI (Some (GnosisSafeL2 d))
        ∧ getProxyFactoryContractInstance web3 "57"
          = eth_Contract web3 ProxyFactoryABI (Some (GnosisSafeProxyFactory d))
        ∧ getFallbackHandlerContractInstance web3 "57"
          = eth_Contract web3 FallBackHandlerABI
              (Some (CompatibilityFallbackHandler d))
        ∧ getMultiSendContractInstance web3 "57"
          = eth_Contract web3 MultiSendDeploymentABI (Some (MultiSend d))
        ∧ getSignMessageLibContractInstance web3 "57"
          = eth_Contract web3 SignMessageLibABI (Some (SignMessageLib d)).
Proof.
  assert (Hin : "57" ∈ dom contracts).
  { apply elem_of_dom. eexists. vm_compute. reflexivity. }
  split; [exact Hin|]. exact (supported_chain_lookups_succeed "57" Hin).
Defined.

(** Counterexample to C6 as stated: the gateway fails with a coded
    exception, and the function returns [undefined] normally, the failure
    having gone to the log. *)
Lemma getMasterCopyAddressFromProxyAddress_catches_counterexample :
  let w := Reference.initial "57" in
  Reference.getSafeInfo "0xA1"
  = Throw (Reference.codedException "605: Error fetching safe info")
  ∧ getMasterCopyAddressFromProxyAddress Reference.getSafeInfo "0xA1" w
    = (Return None, set_console ["605: Error fetching safe info"] w).
Proof. split; vm_compute; reflexivity. Qed.

(** Witness of C6 as amended. *)
Lemma getMasterCopyAddressFromProxyAddress_recovers_witness :
  let w := Reference.initial "57" in
  Reference.getSafeInfo "0xA1"
  = Throw (Reference.codedException "605: Error fetching safe info")
  ∧ getMasterCopyAddressFromProxyAddress Reference.getSafeInfo "0xA1" w
    = (Return None, set_console ["605: Error fetching safe info"] w).
Proof.
  split; [reflexivity|].
  eapply getMasterCopyAddressFromProxyAddress_recovers; reflexivity.
Defined.

(** Counterexample to C7 as stated: the handles were instantiated on chain
    57 and the user then selected chain 1; the call throws, overwrites
    nothing, and the handles still are those of chain 57. *)
Lemma instantiateSafeContracts_unsupported_chain_counterexample :
  let w := Reference.switchedTo1 in
  instantiateSafeContracts w
  = (Throw (undefinedRead "GnosisSafeProxyFactory"), w)
  ∧ ¬ handlesReflect (storeWeb3 w) (storeChainId w) w
  ∧ handlesReflect (storeWeb3 w) "57" w.
Proof.
  cbv zeta. split; [vm_compute; reflexivity|]. split.
  - intros (d & Hd & _). vm_compute in Hd. discriminate.
  - eexists. split; [vm_compute; reflexivity|].
    repeat apply conj; reflexivity.
Qed.

(** Witness of C7 as amended: instantiating on chain 57 from scratch. *)
Lemma instantiateSafeContracts_overwrites_on_return_witness :
  instantiateSafeContracts (Reference.initial "57")
  = (Return (), Reference.instantiated57)
  ∧ handlesReflect Reference.web3 "57" Reference.instantiated57.
Proof.
  pose proof (proj1 (instantiateSafeContracts_overwrites_on_return
                       (Reference.initial "57")) Reference.instantiated57)
    as [Hto Hfrom].
  assert (Hrun : instantiateSafeContracts (Reference.initial "57")
                 = (Return (), Reference.instantiated57)).
  { apply Hfrom. eexists _, _, _, _, _.
    split; [vm_compute; reflexivity|].
    repeat apply conj; try reflexivity.
    eexists. split; [vm_compute; reflexivity|].
    repeat apply conj; reflexivity. }
  split; [exact Hrun|].
  destruct (Hto Hrun) as (d & pf & sm & fh & ms & _ & _ & _ & _ & _ & _ & H).
  exact H.
Defined.

(** Witness of C8 on chain 57. *)
Lemma safe_master_is_GnosisSafeL2_witness :
  ∃ d, contracts !! "57" = Some d
    ∧ getGnosisSafeContractInstance Reference.web3 "57"
      = Return {| jsonInterface := GnosisSafeL2ABI;
                  options_address := GnosisSafeL2 d |}
    ∧ getSafeDeploymentTransaction Reference.ZERO_ADDRESS Reference.EMPTY_DATA
        Reference.encodeABI ["0xA1"; "0xB2"] 2 7 Reference.instantiated57
      = (Return {| call_contract :=
                     {| jsonInterface := ProxyFactoryABI;
                        options_address := GnosisSafeProxyFactory d |};
                   call_method := "createProxyWithNonce";
                   call_arguments :=
                     [ JsString (GnosisSafeL2 d); JsString "0xsetup";
                       JsNumber 7 ] |},
         Reference.instantiated57).
Proof.
  eexists. split; [vm_compute; reflexivity|].
  edestruct (safe_master_is_GnosisSafeL2 Reference.ZERO_ADDRESS
               Reference.EMPTY_DATA Reference.encodeABI Reference.web3 "57")
    as [Hget Htx]; [vm_compute; reflexivity|].
  split; [exact Hget|].
  destruct (Htx (Reference.initial "57") _ _ _ _ ["0xA1"; "0xB2"] 2 7
              eq_refl eq_refl eq_refl eq_refl eq_refl eq_refl eq_refl)
    as (w' & Hw' & _ & Hrun).
  injection Hw' as <-. exact Hrun.
Defined.

(** Witness of C10: the gateway fails with an ordinary [Error]. *)
Lemma getMasterCopyAddressFromProxyAddress_handler_throws_witness :
  let w := Reference.initial "57" in
  Reference.getSafeInfo_plain "0xA1" = Throw (Error "Network Error")
  ∧ log_method (Error "Network Error") = None
  ∧ getMasterCopyAddressFromProxyAddress Reference.getSafeInfo_plain "0xA1" w
    = (Throw (TypeError "e.log is not a function"), w).
Proof.
  cbv zeta. split; [reflexivity|]. split; [reflexivity|].
  eapply getMasterCopyAddressFromProxyAddress_handler_throws; reflexivity.
Defined.

(** ** Witnesses of the further properties *)

(** Witness of X1: ['constructor'] is inherited from [Object.prototype], so
    the guard is reached and the module's own error is thrown. *)
Lemma lookup_off_table_error_witness :
  ("constructor" ∉ dom contracts)
  ∧ getSignMessageLibAddress "constructor"
    = Throw (Error "SignMessageLib contract not found for chainId: constructor")
  ∧ getMultiSendContractInstance Reference.web3 "constructor"
    = Throw (Error "MultiSend contract not found for chainId: constructor").
Proof.
  assert (H : "constructor" ∉ dom contracts).
  { apply not_elem_of_dom. vm_compute. reflexivity. }
  destruct (lookup_off_table_error Reference.web3 "constructor" H)
    as (_ & _ & _ & Hms & Haddr & _).
  split; [exact H|]. split; [exact Haddr | exact Hms].
Defined.

(** Witness of X2: the master copy of chain 57 and the multi-send contract
    of chain 5700. *)
Lemma table_addresses_shaped_and_distinct_witness :
  ∃ d1 d2,
    contracts !! "57" = Some d1
    ∧ contracts !! "5700" = Some d2
    ∧ addressShaped (GnosisSafeL2 d1) = true
    ∧ (GnosisSafeL2 d1 = MultiSend d2 → "57" = "5700" ∧ GnosisSafeL2_ = MultiSend_).
Proof.
  eexists _, _. split; [vm_compute; reflexivity|].
  split; [vm_compute; reflexivity|].
  eapply (table_addresses_shaped_and_distinct "57" "5700" _ _ GnosisSafeL2_
            MultiSend_); vm_compute; reflexivity.
Defined.

(** Witness of X5: the world in which nothing is instantiated. *)
Lemma uninstantiated_handles_throw_witness :
  let w := Reference.initial "57" in
  getSafeMasterContractAddress w = (Throw (undefinedRead "options"), w)
  ∧ getMultisendContract w = (Return None, w)
  ∧ estimateGasForDeployingSafe Reference.ZERO_ADDRESS Reference.EMPTY_DATA
      Reference.encodeABI Reference.calculateGasOf ["0xA1"; "0xB2"] 2 "0xC3" 7
      w
    = (Throw (undefinedRead "methods"), w).
Proof.
  cbv zeta.
  destruct (uninstantiated_handles_throw Reference.ZERO_ADDRESS
              Reference.EMPTY_DATA Reference.encodeABI
              Reference.calculateGasOf ["0xA1"; "0xB2"] 2 "0xC3" 7
              (Reference.initial "57") eq_refl eq_refl eq_refl eq_refl)
    as (Hsm & _ & _ & Hms & _ & Hgas).
  split; [exact Hsm|]. split; [exact Hms | exact Hgas].
Defined.

(** Witness of X6: the node refuses, and the function rejects with the
    node's error. *)
Lemma estimateGasForDeployingSafe_rejection_witness :
  estimateGasForDeployingSafe Reference.ZERO_ADDRESS Reference.EMPTY_DATA
    Reference.encodeABI Reference.calculateGasOf_reverting ["0xA1"; "0xB2"] 2
    "0xC3" 7 Reference.instantiated57
  = (Throw (Error "execution reverted"), Reference.instantiated57).
Proof.
  apply estimateGasForDeployingSafe_rejection. split; [reflexivity|].
  right. eexists. split; [reflexivity|]. right.
  eexists _, _. repeat apply conj; reflexivity.
Defined.

(** Witness of X7: after chain 1 is selected, the transaction is still the
    one for the handles of chain 57. *)
Lemma deployment_uses_cached_handles_witness :
  (getSafeDeploymentTransaction Reference.ZERO_ADDRESS Reference.EMPTY_DATA
     Reference.encodeABI ["0xA1"; "0xB2"] 2 7 Reference.switchedTo1).1
  = Return
      (createProxyWithNonceCall
         {| jsonInterface := ProxyFactoryABI;
            options_address := "0x111dE2B36368ddDA41CCB0E335eb4a59A3750A1B" |}
         "0x7e1eaA0f4BBDD5501dAb7542B405Ab7fc343105F" "0xsetup" 7).
Proof.
  rewrite (proj1 (deployment_uses_cached_handles Reference.ZERO_ADDRESS
                    Reference.EMPTY_DATA Reference.encodeABI
                    Reference.calculateGasOf ["0xA1"; "0xB2"] 2 "0xC3" 7
                    Reference.switchedTo1 Reference.instantiated57
                    eq_refl eq_refl eq_refl)).
  reflexivity.
Defined.

(** Witness of X9: reading back after instantiating on chain 57. *)
Lemma getters_read_back_instantiation_witness :
  instantiateSafeContracts (Reference.initial "57")
  = (Return (), Reference.instantiated57)
  ∧ getSafeMasterContractAddress Reference.instantiated57
    = (Return "0x7e1eaA0f4BBDD5501dAb7542B405Ab7fc343105F",
       Reference.instantiated57).
Proof.
  assert (Hrun : instantiateSafeContracts (Reference.initial "57")
                 = (Return (), Reference.instantiated57))
    by (vm_compute; reflexivity).
  split; [exact Hrun|].
  destruct (getters_read_back_instantiation _ _ Hrun)
    as (d & sm & fh & ms & Hd & Hsm & _ & _ & Hread & _).
  vm_compute in Hd. injection Hd as <-.
  cbn in Hsm. injection Hsm as <-. exact Hread.
Defined.

(** Witness of X10. *)
Lemma instantiateSafeContracts_idempotent_witness :
  instantiateSafeContracts (Reference.initial "57")
  = (Return (), Reference.instantiated57)
  ∧ instantiateSafeContracts Reference.instantiated57
    = (Return (), Reference.instantiated57).
Proof.
  assert (Hrun : instantiateSafeContracts (Reference.initial "57")
                 = (Return (), Reference.instantiated57))
    by (vm_compute; reflexivity).
  split; [exact Hrun|]. exact (instantiateSafeContracts_idempotent _ _ Hrun).
Defined.

(** Witness of X11: from scratch and from the handles of chain 57. *)
Lemma instantiateSafeContracts_last_write_wins_witness :
  (instantiateSafeContracts (Reference.initial "57")).1
  = (instantiateSafeContracts Reference.instantiated57).1
  ∧ sameHandles (instantiateSafeContracts (Reference.initial "57")).2
      (instantiateSafeContracts Reference.instantiated57).2.
Proof.
  destruct (instantiateSafeContracts_last_write_wins
              (Reference.initial "57") Reference.instantiated57
              eq_refl eq_refl) as [Hsame Hhandles].
  split; [exact Hsame|]. apply Hhandles. vm_compute. reflexivity.
Defined.

(** Witness of X12: web3 rejects the master copy on chain 57; the proxy
    factory handle is already replaced when the call throws. *)
Lemma instantiateSafeContracts_not_atomic_witness :
  let w :=
    {| proxyFactoryMaster := None; safeMaster := None;
       fallbackHandler := None; multiSend := None;
       storeChainId := "57"; storeWeb3 := Reference.web3_rejecting_safe;
       console := []; deploymentCalls := [] |} in
  instantiateSafeContracts w
  = (Throw (Error "Given address is invalid"),
     set_proxyFactoryMaster
       {| jsonInterface := ProxyFactoryABI;
          options_address := "0x111dE2B36368ddDA41CCB0E335eb4a59A3750A1B" |}
       w).
Proof.
  cbv zeta.
  assert (Hd : ∃ d, contracts !! "57" = Some d)
    by (eexists; vm_compute; reflexivity).
  destruct Hd as [d Hd]. pose proof Hd as Hd'. vm_compute in Hd'.
  injection Hd' as <-.
  match goal with
  | |- instantiateSafeContracts ?w = _ =>
      eapply (proj1 (proj2 (instantiateSafeContracts_not_atomic w _ _ Hd)))
  end; reflexivity.
Defined.

(** Witness of X13: the gateway knows the Safe. *)
Lemma getMasterCopyAddressFromProxyAddress_resolved_witness :
  let w := Reference.initial "57" in
  getMasterCopyAddressFromProxyAddress Reference.getSafeInfo
    "0x57CB13cbef735FbDD65f5f2866638c546464E45F" w
  = (Return (Some "0x7e1eaA0f4BBDD5501dAb7542B405Ab7fc343105F"), w).
Proof.
  cbv zeta.
  exact (getMasterCopyAddressFromProxyAddress_resolved Reference.getSafeInfo
           "0x57CB13cbef735FbDD65f5f2866638c546464E45F"
           (Reference.initial "57") _ eq_refl).
Defined.

(** Witness of X17: the estimate right after instantiating on chain 57. *)
Lemma estimateGasForDeployingSafe_after_instantiation_witness :
  instantiateSafeContracts (Reference.initial "57")
  = (Return (), Reference.instantiated57)
  ∧ estimateGasForDeployingSafe Reference.ZERO_ADDRESS Reference.EMPTY_DATA
      Reference.encodeABI Reference.calculateGasOf ["0xA1"; "0xB2"] 2 "0xC3" 7
      Reference.instantiated57
    = (Return 106000, Reference.instantiated57).
Proof.
  assert (Hrun : instantiateSafeContracts (Reference.initial "57")
                 = (Return (), Reference.instantiated57))
    by (vm_compute; reflexivity).
  split; [exact Hrun|].
  destruct (estimateGasForDeployingSafe_after_instantiation
              Reference.ZERO_ADDRESS Reference.EMPTY_DATA Reference.encodeABI
              Reference.calculateGasOf ["0xA1"; "0xB2"] 2 "0xC3" 7 _ _ Hrun)
    as (d & pf & sm & fh & _ & _ & _ & _ & Hgas).
  rewrite Hgas. reflexivity.
Defined.
